(** * One-hot encoding round trip of [prophet_forecast.py]

    A shallow embedding of the table helpers of [src/prophet_forecast.py]:

    - [sanitize_column_names] (lines 14-18),
    - [undummy] (lines 22-26),
    - the encoding step [pd.get_dummies(data, columns=[...])] (line 48),

    together with the fragment of Python strings and of pandas frames these
    three use.  Python objects that are mutated in place live in a store; the
    functions of the script are written in a small state-and-exception monad
    over that store.

    pandas itself is a library, not code of the script.  Its operations are
    modelled after their documented behaviour, as far as the script uses
    them:

    - a frame is the list of its labelled columns, a column is either of the
      [object] dtype (strings) or numeric, with [None] for a missing value;
      numeric values are integers, and an indicator column holds 0 and 1
      (the [uint8] columns of [get_dummies] before pandas 2.0, booleans
      since, which [idxmax] orders alike).  pandas compares the values of a
      numeric selection as [float64] numbers as soon as one of them is
      missing; the model compares integers, which is the same comparison
      for values of magnitude at most [2^53] ([values_exact]), and the
      statements on the label [idxmax] retains assume as much;
    - [idxmax(axis=1)] of a frame without rows is the empty series, whatever
      the selection; otherwise it raises [ValueError] on a selection without
      columns, compares numbers when every selected column is numeric,
      strings when every selected column holds strings and nothing else, and
      raises [TypeError] on the other selections (strings and numbers, or
      strings and missing values, cannot be compared); it passes over the
      missing values of a numeric row.  A row without any value has no label
      up to pandas 2 and makes pandas 3 raise [ValueError]: the model gives
      it no label, and the statements on the outcome of [idxmax] assume that
      every row has a value ([rows_have_value]);
    - the [.str] accessor exists on a series of the [object] dtype only:
      [AttributeError] on the empty series of a frame without columns, which
      is numeric;
    - [Series.str.replace] takes its pattern literally (the default since
      pandas 2.0; the same result for a pattern without regular expression
      metacharacters) and replaces every occurrence;
    - [get_dummies] orders the levels increasingly, leaves missing values
      out of the levels, and appends the indicator columns after the columns
      it does not encode. *)

From Stdlib Require Import List Bool Arith ZArith Lia Ascii String.
From Stdlib Require Import Permutation DecimalString.
Import ListNotations.

Local Open Scope string_scope.
Local Open Scope list_scope.

Set Implicit Arguments.

(* ================================================================== *)
(** * Python strings *)
(* ================================================================== *)

(** A Python [str] is modelled by [string]: a sequence of characters, each
    character being an 8-bit code. *)

Module PyStr.

(** [s.startswith(prefix)]. *)
Definition startswith (s prefix : string) : bool := String.prefix prefix s.

(** Membership of a character in the character set given to [strip],
    [lstrip] and [rstrip]. *)
Fixpoint in_chars (c : ascii) (chars : string) : bool :=
  match chars with
  | EmptyString => false
  | String d chars' => Ascii.eqb c d || in_chars c chars'
  end.

(** [s.lstrip(chars)]: drop the leading characters that belong to [chars]. *)
Fixpoint lstrip (chars s : string) : string :=
  match s with
  | EmptyString => EmptyString
  | String c s' => if in_chars c chars then lstrip chars s' else s
  end.

(** [s.rstrip(chars)]: drop the trailing characters that belong to
    [chars]. *)
Fixpoint rstrip (chars s : string) : string :=
  match s with
  | EmptyString => EmptyString
  | String c s' =>
      match rstrip chars s' with
      | EmptyString => if in_chars c chars then EmptyString
                       else String c EmptyString
      | r => String c r
      end
  end.

(** [s.strip(chars)]. *)
Definition strip (chars s : string) : string := rstrip chars (lstrip chars s).

(** [s.replace(old, new)] for a non-empty [old]: scan from the left, replace
    every non-overlapping occurrence.  [skip] counts the characters of an
    occurrence that has just been replaced and are still to be passed. *)
Fixpoint replace_from (old new : string) (skip : nat) (s : string) : string :=
  match s with
  | EmptyString => EmptyString
  | String c s' =>
      match skip with
      | S k => replace_from old new k s'
      | O =>
          if String.prefix old s
          then new ++ replace_from old new (String.length old - 1) s'
          else String c (replace_from old new 0 s')
      end
  end.

(** [s.replace(old, new)] for the empty [old]: Python inserts [new] before every character and
    at the end. *)
Fixpoint intersperse (new s : string) : string :=
  match s with
  | EmptyString => new
  | String c s' => new ++ String c (intersperse new s')
  end.

(** [s.replace(old, new)], all occurrences (no count argument). *)
Definition replace (s old new : string) : string :=
  match old with
  | EmptyString => intersperse new s
  | _ => replace_from old new 0 s
  end.

(** The character class [[a-zA-Z0-9_]] of the regular expression on
    line 15. *)
Definition is_word (c : ascii) : bool :=
  let n := nat_of_ascii c in
  (Nat.leb 97 n && Nat.leb n 122) || (Nat.leb 65 n && Nat.leb n 90)
  || (Nat.leb 48 n && Nat.leb n 57) || Ascii.eqb c "_".

(** [re.sub(r'[^a-zA-Z0-9_]', '_', s)]: every character outside the class
    becomes an underscore. *)
Fixpoint sub_nonword (s : string) : string :=
  match s with
  | EmptyString => EmptyString
  | String c s' => String (if is_word c then c else "_"%char) (sub_nonword s')
  end.

(** [re.sub(r'__+', '_', s)]: every maximal run of two or more underscores
    becomes one underscore. *)
Fixpoint sub_underscores (s : string) : string :=
  match s with
  | EmptyString => EmptyString
  | String c s' =>
      if Ascii.eqb c "_"
      then match s' with
           | String d _ =>
               if Ascii.eqb d "_" then sub_underscores s'
               else String c (sub_underscores s')
           | EmptyString => String c EmptyString
           end
      else String c (sub_underscores s')
  end.

End PyStr.

(** The three string methods applied to every column label by
    [sanitize_column_names], in the order of lines 15, 16 and 17. *)
Definition sanitize_label (s : string) : string :=
  PyStr.strip "_" (PyStr.sub_underscores (PyStr.sub_nonword s)).

(* ================================================================== *)
(** * Python exceptions and the object store *)
(* ================================================================== *)

(** An exception is identified by the name of its class. *)
Inductive exn : Type := PyExn (cls : string).

Definition exn_class (e : exn) : string := let (cls) := e in cls.

Definition KeyError : exn := PyExn "KeyError".
Definition ValueError : exn := PyExn "ValueError".
Definition TypeError : exn := PyExn "TypeError".
Definition AttributeError : exn := PyExn "AttributeError".

(** Outcome of an evaluation: a value, or a raised exception. *)
Inductive result (A : Type) : Type :=
| Ok (a : A)
| Raise (e : exn).

Arguments Ok {A} a.
Arguments Raise {A} e.

(* ================================================================== *)
(** * pandas frames *)
(* ================================================================== *)

(** A column of a frame.  [Object] is the [object] dtype holding Python
    strings, [Numeric] a numeric (or boolean) dtype whose values are taken
    in [Z]; in both a missing value ([None], [NaN]) is [None]. *)
Inductive series : Type :=
| Object (l : list (option string))
| Numeric (l : list (option Z)).

Definition series_len (s : series) : nat :=
  match s with
  | Object l => List.length l
  | Numeric l => List.length l
  end.

(** A [DataFrame]: the columns in their order, each with its label. *)
Definition DataFrame : Type := list (string * series).

Definition mem (c : string) (l : list string) : bool :=
  existsb (String.eqb c) l.

Module Pd.

(** [df.columns]. *)
Definition columns (df : DataFrame) : list string := map fst df.

(** [len(df)], read off the first column. *)
Definition nrows (df : DataFrame) : nat :=
  match df with
  | [] => 0
  | (_, s) :: _ => series_len s
  end.

(** The column of label [c], if any. *)
Fixpoint lookup (c : string) (df : DataFrame) : option series :=
  match df with
  | [] => None
  | (c', s) :: df' => if String.eqb c' c then Some s else lookup c df'
  end.

(** [df[labels]] for a list of labels: the named columns in the order of
    [labels]; [KeyError] when a label is not a column. *)
Fixpoint getitem (df : DataFrame) (labels : list string) : result DataFrame :=
  match labels with
  | [] => Ok []
  | c :: labels' =>
      match lookup c df with
      | None => Raise KeyError
      | Some s =>
          match getitem df labels' with
          | Ok sel => Ok ((c, s) :: sel)
          | Raise e => Raise e
          end
      end
  end.

(** [df[c] = s]: an existing column of that label is overwritten where it
    stands, otherwise the column is appended. *)
Definition setitem (df : DataFrame) (c : string) (s : series) : DataFrame :=
  if mem c (columns df)
  then map (fun col => if String.eqb (fst col) c then (fst col, s) else col) df
  else df ++ [(c, s)].

(** [df.drop(columns=labels)]: [KeyError] when a label is not a column. *)
Definition drop (df : DataFrame) (labels : list string) : result DataFrame :=
  if forallb (fun c => mem c (columns df)) labels
  then Ok (filter (fun col => negb (mem (fst col) labels)) df)
  else Raise KeyError.

(** The values of a selection when every column is numeric. *)
Fixpoint numeric_block (sel : DataFrame)
  : option (list (string * list (option Z))) :=
  match sel with
  | [] => Some []
  | (c, Numeric l) :: sel' =>
      match numeric_block sel' with
      | Some blk => Some ((c, l) :: blk)
      | None => None
      end
  | (_, Object _) :: _ => None
  end.

(** Row [i] of a numeric block, each value with the label of its column. *)
Definition row_of (blk : list (string * list (option Z))) (i : nat)
  : list (string * option Z) :=
  map (fun col => (fst col, nth i (snd col) None)) blk.

(** [argmax] of one row with [skipna=True], scanning the columns from the
    left: [best] is the column retained so far; a later column replaces it
    only when its value is strictly larger.  The values are compared as
    integers, which is the comparison of pandas for the values that
    [float64] holds exactly.  A row without values has no [argmax] ([NaN],
    up to pandas 2). *)
Fixpoint argmax_from (best : option (string * Z))
         (row : list (string * option Z)) : option string :=
  match row with
  | [] => option_map fst best
  | (_, None) :: row' => argmax_from best row'
  | (c, Some v) :: row' =>
      match best with
      | Some (_, b) =>
          if (b <? v)%Z then argmax_from (Some (c, v)) row'
          else argmax_from best row'
      | None => argmax_from (Some (c, v)) row'
      end
  end.

(** The values of a selection when every column holds strings and no
    missing value. *)
Fixpoint complete (l : list (option string)) : option (list string) :=
  match l with
  | [] => Some []
  | Some x :: l' =>
      match complete l' with
      | Some xs => Some (x :: xs)
      | None => None
      end
  | None :: _ => None
  end.

Fixpoint string_block (sel : DataFrame)
  : option (list (string * list string)) :=
  match sel with
  | [] => Some []
  | (c, Object l) :: sel' =>
      match complete l, string_block sel' with
      | Some xs, Some blk => Some ((c, xs) :: blk)
      | _, _ => None
      end
  | (_, Numeric _) :: _ => None
  end.

(** Row [i] of a block of strings. *)
Definition row_of_strings (blk : list (string * list string)) (i : nat)
  : list (string * string) :=
  map (fun col => (fst col, nth i (snd col) EmptyString)) blk.

(** [argmax] of one row of strings, in the order of Python's [str]: as for
    numbers, a later column replaces the retained one only when its value is
    strictly larger. *)
Fixpoint argmax_strings (best : option (string * string))
         (row : list (string * string)) : option string :=
  match row with
  | [] => option_map fst best
  | (c, v) :: row' =>
      match best with
      | Some (_, b) =>
          if String.ltb b v then argmax_strings (Some (c, v)) row'
          else argmax_strings best row'
      | None => argmax_strings (Some (c, v)) row'
      end
  end.

(** [sel.idxmax(axis=1)] for a selection [sel] of columns of [df]: for every
    row the label of the column holding the row's maximum.  A selection
    keeps the rows of the frame it is taken from, also when it has no
    column: the rows are those of [df].

    - [df] has no row: the empty series, and no value is compared; its dtype
      is [object] as the labels of [df] are, and numeric when [df] has no
      column either (the labels of [pd.DataFrame()] are integers);
    - [sel] has no column: [ValueError] ("attempt to get argmax of an empty
      sequence");
    - every column of [sel] is numeric: the numbers are compared;
    - every column of [sel] holds strings and no missing value: the strings
      are compared;
    - otherwise [TypeError], as two values of a row cannot be compared. *)
Definition idxmax_axis1 (df sel : DataFrame) : result series :=
  match nrows df with
  | 0 =>
      match df with
      | [] => Ok (Numeric [])
      | _ :: _ => Ok (Object [])
      end
  | S _ =>
      match sel with
      | [] => Raise ValueError
      | _ :: _ =>
          match numeric_block sel with
          | Some blk =>
              Ok (Object (map (fun i => argmax_from None (row_of blk i))
                              (seq 0 (nrows df))))
          | None =>
              match string_block sel with
              | Some blk =>
                  Ok (Object (map (fun i => argmax_strings None
                                              (row_of_strings blk i))
                                  (seq 0 (nrows df))))
              | None => Raise TypeError
              end
          end
      end
  end.

(** [str.replace(old, new)] on every label of a series, the pattern taken
    literally; missing values stay missing. *)
Definition str_replace (s : list (option string)) (old new : string)
  : list (option string) :=
  map (option_map (fun x => PyStr.replace x old new)) s.

(** [s.str.replace(old, new)]: the [.str] accessor raises [AttributeError]
    on a series that is not of the [object] dtype. *)
Definition series_str_replace (s : series) (old new : string) : result series :=
  match s with
  | Object l => Ok (Object (str_replace l old new))
  | Numeric _ => Raise AttributeError
  end.

End Pd.

(* ================================================================== *)
(** * [pd.get_dummies] *)
(* ================================================================== *)

Section Dummies.

(** The type of the levels of the encoded column, its order and the text
    Python's [str] gives a level. *)
Variable A : Type.
Variable eq_dec : forall x y : A, {x = y} + {x <> y}.
Variable leb : A -> A -> bool.
Variable fmt : A -> string.

(** The values of a column that are not missing. *)
Fixpoint present (l : list (option A)) : list A :=
  match l with
  | [] => []
  | Some x :: l' => x :: present l'
  | None :: l' => present l'
  end.

Fixpoint insert_sorted (x : A) (l : list A) : list A :=
  match l with
  | [] => [x]
  | y :: l' => if leb x y then x :: l else y :: insert_sorted x l'
  end.

Fixpoint sort (l : list A) : list A :=
  match l with
  | [] => []
  | x :: l' => insert_sorted x (sort l')
  end.

(** The levels of a column: its distinct values, missing ones left out
    ([dummy_na=False]), in increasing order. *)
Definition levels (l : list (option A)) : list A :=
  sort (nodup eq_dec (present l)).

(** The indicator column of level [v]: 1 on the rows holding [v], else 0. *)
Definition indicator (v : A) (l : list (option A)) : series :=
  Numeric (map (fun x => match x with
                         | Some y => Some (if eq_dec y v then 1%Z else 0%Z)
                         | None => Some 0%Z
                         end) l).

(** One indicator column per level, labelled [prefix + prefix_sep +
    str(level)]. *)
Definition dummies (prefix prefix_sep : string) (l : list (option A))
  : DataFrame :=
  map (fun v => ((prefix ++ prefix_sep ++ fmt v)%string, indicator v l))
      (levels l).

End Dummies.

(** Python's [str] of an integer. *)
Definition str_int (z : Z) : string := NilZero.string_of_int (Z.to_int z).

(** A numeric column with a missing value holds [float64] numbers, and
    Python's [str] of such a number ends in [.0] (for the magnitudes below
    [10^16], which Python writes without an exponent). *)
Definition has_missing (l : list (option Z)) : bool :=
  existsb (fun x => match x with
                    | None => true
                    | Some _ => false
                    end) l.

Definition str_float (z : Z) : string := (str_int z ++ ".0")%string.

Definition get_dummies_1d (prefix prefix_sep : string) (s : series) : DataFrame :=
  match s with
  | Object l => dummies string_dec String.leb (fun v => v) prefix prefix_sep l
  | Numeric l =>
      dummies Z.eq_dec Z.leb (if has_missing l then str_float else str_int)
              prefix prefix_sep l
  end.

(** [pd.get_dummies(data, columns=columns)], the other arguments at their
    defaults ([prefix=None], so the label of the encoded column;
    [prefix_sep='_']; [dummy_na=False]; [drop_first=False]): the columns that
    are not encoded, followed by the indicator columns of every encoded
    column. *)
Definition get_dummies (data : DataFrame) (columns : list string)
  : result DataFrame :=
  match Pd.getitem data columns with
  | Raise e => Raise e
  | Ok data_to_encode =>
      Ok (filter (fun col => negb (mem (fst col) columns)) data
          ++ flat_map (fun col => get_dummies_1d (fst col) "_" (snd col))
                      data_to_encode)
  end.

(* ================================================================== *)
(** * The store and the monad of the script *)
(* ================================================================== *)

(** A frame that is mutated in place is an object of the store; a variable
    of the script holds a reference to it. *)
Definition ref : Type := nat.
Definition store : Type := ref -> DataFrame.

Definition upd (h : store) (r : ref) (df : DataFrame) : store :=
  fun r' => if Nat.eqb r' r then df else h r'.

(** Computations that read and write the store and may raise. *)
Definition Py (A : Type) : Type := store -> result A * store.

Definition ret {A} (a : A) : Py A := fun h => (Ok a, h).

Definition raise {A} (e : exn) : Py A := fun h => (Raise e, h).

Definition bind {A B} (m : Py A) (f : A -> Py B) : Py B :=
  fun h => match m h with
           | (Ok a, h') => f a h'
           | (Raise e, h') => (Raise e, h')
           end.

Definition lift {A} (r : result A) : Py A :=
  fun h => (r, h).

Definition load (r : ref) : Py DataFrame := fun h => (Ok (h r), h).

Definition save (r : ref) (df : DataFrame) : Py unit :=
  fun h => (Ok tt, upd h r df).

Notation "x <- m ;; k" := (bind m (fun x => k))
  (at level 61, m at next level, right associativity).
Notation "m ;; k" := (bind m (fun _ => k))
  (at level 61, right associativity).

(** [df.columns], read. *)
Definition get_columns (df : ref) : Py (list string) :=
  frame <- load df ;; ret (Pd.columns frame).

(** [df.columns = labels]: [ValueError] on a length mismatch. *)
Definition set_columns (df : ref) (labels : list string) : Py unit :=
  frame <- load df ;;
  if Nat.eqb (List.length labels) (List.length frame)
  then save df (combine labels (map snd frame))
  else raise ValueError.

(** [df[labels]], a new frame. *)
Definition getitem (df : ref) (labels : list string) : Py DataFrame :=
  frame <- load df ;; lift (Pd.getitem frame labels).

(** [sel.idxmax(axis=1)], for a selection [sel] of columns of [df]. *)
Definition idxmax (df : ref) (sel : DataFrame) : Py series :=
  frame <- load df ;; lift (Pd.idxmax_axis1 frame sel).

(** [df[c] = s], in place. *)
Definition setitem (df : ref) (c : string) (s : series) : Py unit :=
  frame <- load df ;; save df (Pd.setitem frame c s).

(** [df.drop(columns=labels, inplace=True)]. *)
Definition drop_inplace (df : ref) (labels : list string) : Py unit :=
  frame <- load df ;;
  frame' <- lift (Pd.drop frame labels) ;;
  save df frame'.

(* ================================================================== *)
(** * The functions of [prophet_forecast.py] *)
(* ================================================================== *)

(** Lines 14-18. *)
Definition sanitize_column_names (df : ref) : Py ref :=
  cols <- get_columns df ;;
  set_columns df (map PyStr.sub_nonword cols) ;;
  cols <- get_columns df ;;
  set_columns df (map PyStr.sub_underscores cols) ;;
  cols <- get_columns df ;;
  set_columns df (map (PyStr.strip "_") cols) ;;
  ret df.

(** Lines 22-26. *)
Definition undummy (df : ref) (prefix : string) : Py ref :=
  cols <- get_columns df ;;
  let dummy_cols := filter (fun col => PyStr.startswith col prefix) cols in
  sel <- getitem df dummy_cols ;;
  idx <- idxmax df sel ;;
  labels <- lift (Pd.series_str_replace idx prefix EmptyString) ;;
  setitem df (PyStr.rstrip "_" prefix) labels ;;
  drop_inplace df dummy_cols ;;
  ret df.

(** Line 48: the two categorical regressors are encoded. *)
Definition encode_regressors (data : DataFrame) : result DataFrame :=
  get_dummies data ["distribution_center_name"; "product_name"].

(** Line 69 (the test of lines 58-60): the labels of the encoded
    regressors. *)
Definition regressor_columns (data : DataFrame) : list string :=
  filter (fun col => PyStr.startswith col "distribution_center_name_"
                     || PyStr.startswith col "product_name_")
         (Pd.columns data).

(** Lines 94-99: both regressors are decoded in the forecast, then the
    columns of the result are selected. *)
Definition decode_forecast (forecast : ref) : Py DataFrame :=
  forecast <- undummy forecast "distribution_center_name_" ;;
  forecast <- undummy forecast "product_name_" ;;
  getitem forecast ["ds"; "distribution_center_name"; "product_name";
                    "yhat"; "yhat_lower"; "yhat_upper"].

(* ================================================================== *)
(** * Notions used in the statements *)
(* ================================================================== *)

Fixpoint nodupb (l : list string) : bool :=
  match l with
  | [] => true
  | x :: l' => negb (mem x l') && nodupb l'
  end.

(** A well-formed frame: the labels are pairwise distinct (a row maps each
    label to one value) and the columns have one length. *)
Definition wf (df : DataFrame) : bool :=
  nodupb (Pd.columns df)
  && forallb (fun col => Nat.eqb (series_len (snd col)) (Pd.nrows df)) df.

(** The labels [undummy] takes for indicator columns (line 23). *)
Definition dummy_cols (df : DataFrame) (prefix : string) : list string :=
  filter (fun col => PyStr.startswith col prefix) (Pd.columns df).

(** The value of column [c] on row [i], for a numeric column. *)
Definition value_at (df : DataFrame) (c : string) (i : nat) : option Z :=
  match Pd.lookup c df with
  | Some (Numeric l) => nth i l None
  | _ => None
  end.

Definition is_numeric (s : series) : bool :=
  match s with
  | Numeric _ => true
  | Object _ => false
  end.

(** Every column taken for an indicator column is numeric. *)
Definition indicators_numeric (df : DataFrame) (prefix : string) : bool :=
  forallb (fun col => negb (PyStr.startswith (fst col) prefix)
                      || is_numeric (snd col)) df.

(** [res] is the first column, in the order of [cols], that holds the
    maximum of row [i]; no column when the row has no value. *)
Definition first_argmax (df : DataFrame) (cols : list string) (i : nat)
           (res : option string) : Prop :=
  match res with
  | Some c =>
      exists k v,
        nth_error cols k = Some c /\ value_at df c i = Some v /\
        forall j c' w,
          nth_error cols j = Some c' -> value_at df c' i = Some w ->
          (w <= v)%Z /\ (j < k -> (w < v)%Z)
  | None => forall c', In c' cols -> value_at df c' i = None
  end.

(** What a call leaves in the object it returns. *)
Definition output_of (out : result ref * store) : result DataFrame :=
  match out with
  | (Ok r, h) => Ok (h r)
  | (Raise e, _) => Raise e
  end.

(** The frame [undummy] computes from the frame it is given. *)
Definition undummy_frame (df : DataFrame) (prefix : string) : result DataFrame :=
  match Pd.getitem df (dummy_cols df prefix) with
  | Raise e => Raise e
  | Ok sel =>
      match Pd.idxmax_axis1 df sel with
      | Raise e => Raise e
      | Ok idx =>
          match Pd.series_str_replace idx prefix EmptyString with
          | Raise e => Raise e
          | Ok labels =>
              Pd.drop (Pd.setitem df (PyStr.rstrip "_" prefix) labels)
                      (dummy_cols df prefix)
          end
      end
  end.

(** Row [i] has a value in one of the columns [undummy] selects. *)
Definition row_has_value (df : DataFrame) (prefix : string) (i : nat) : bool :=
  existsb (fun c => match value_at df c i with
                    | Some _ => true
                    | None => false
                    end) (dummy_cols df prefix).

Definition rows_have_value (df : DataFrame) (prefix : string) : bool :=
  forallb (row_has_value df prefix) (seq 0 (Pd.nrows df)).

(** The integers that [float64] holds exactly, whatever their magnitude
    below [2^53]. *)
Definition float_exact (v : option Z) : bool :=
  match v with
  | Some z => (- 2 ^ 53 <=? z)%Z && (z <=? 2 ^ 53)%Z
  | None => true
  end.

(** The numbers of the columns [undummy] selects are held exactly. *)
Definition values_exact (df : DataFrame) (prefix : string) : bool :=
  forallb (fun col => negb (PyStr.startswith (fst col) prefix)
                      || match snd col with
                         | Numeric l => forallb float_exact l
                         | Object _ => true
                         end) df.

(** What the statements on the decoded labels assume of the columns
    [undummy] selects: numbers that [float64] holds exactly, and one on
    every row at least. *)
Definition decodable (df : DataFrame) (prefix : string) : bool :=
  indicators_numeric df prefix && values_exact df prefix
  && rows_have_value df prefix.

(** Every column taken for an indicator column holds strings and no
    missing value. *)
Definition is_strings (s : series) : bool :=
  match s with
  | Object l => forallb (fun x => match x with
                                  | Some _ => true
                                  | None => false
                                  end) l
  | Numeric _ => false
  end.

Definition indicators_strings (df : DataFrame) (prefix : string) : bool :=
  forallb (fun col => negb (PyStr.startswith (fst col) prefix)
                      || is_strings (snd col)) df.

(** The label [idxmax] gives every row of the columns [undummy] selects. *)
Definition selected (df : DataFrame) (prefix : string) : list (option string) :=
  map (fun i => Pd.argmax_from None
                  (map (fun c => (c, value_at df c i)) (dummy_cols df prefix)))
      (seq 0 (Pd.nrows df)).

(** Shapes of labels: the underscore, labels made of characters of the class
    only, labels starting with an underscore, labels without two underscores
    in a row. *)
Definition is_us (c : ascii) : bool := Ascii.eqb c "_".






(** The labels after [sanitize_column_names]. *)
Definition rename (f : string -> string) (df : DataFrame) : DataFrame :=
  map (fun col => (f (fst col), snd col)) df.

(** The columns [get_dummies] leaves as they are. *)
Definition kept (data : DataFrame) (columns : list string) : DataFrame :=
  filter (fun col => negb (mem (fst col) columns)) data.

(** The columns of [df] that [undummy] does not take for indicator
    columns. *)
Definition others (df : DataFrame) (prefix : string) : DataFrame :=
  filter (fun col => negb (PyStr.startswith (fst col) prefix)) df.

Unset Implicit Arguments.

(* ================================================================== *)
(** * Strings: facts *)
(* ================================================================== *)

Module PyStrFacts.
Import PyStr.

Lemma in_chars_us c : in_chars c "_" = is_us c.
Proof. unfold is_us; simpl; now rewrite orb_false_r. Qed.

Lemma is_word_us : is_word "_" = true.
Proof. reflexivity. Qed.




Lemma is_us_eq c : is_us c = true -> c = "_"%char.
Proof. apply Ascii.eqb_eq. Qed.





(** [lstrip] and [rstrip] of underscores. *)


Lemma rstrip_eq c s :
  rstrip "_" (String c s)
  = match rstrip "_" s with
    | EmptyString => if is_us c then EmptyString else String c EmptyString
    | r => String c r
    end.
Proof. cbn [rstrip]. now rewrite in_chars_us. Qed.













End PyStrFacts.

(* ================================================================== *)
(** * The store: facts *)
(* ================================================================== *)

Lemma upd_same h r df : upd h r df r = df.
Proof. unfold upd. now rewrite Nat.eqb_refl. Qed.

Lemma upd_other h r df r' : r' <> r -> upd h r df r' = h r'.
Proof. unfold upd. intros H. apply Nat.eqb_neq in H. now rewrite H. Qed.

Lemma combine_rename f (df : DataFrame) :
  combine (map f (Pd.columns df)) (map snd df) = rename f df.
Proof.
  unfold Pd.columns, rename. induction df as [|col df IH]; simpl; congruence.
Qed.

Lemma rename_rename f g (df : DataFrame) :
  rename g (rename f df) = rename (fun c => g (f c)) df.
Proof. unfold rename. rewrite map_map. reflexivity. Qed.

Lemma columns_rename f (df : DataFrame) :
  Pd.columns (rename f df) = map f (Pd.columns df).
Proof. unfold Pd.columns, rename. now rewrite !map_map. Qed.

(** Assigning to [df.columns] the image of the labels under [f]. *)
Lemma set_columns_map {B} h r f (k : Py B) :
  (cols <- get_columns r ;; set_columns r (map f cols) ;; k) h
  = k (upd h r (rename f (h r))).
Proof.
  unfold bind, get_columns, set_columns, load, ret, save, bind. simpl.
  unfold Pd.columns. rewrite !length_map, Nat.eqb_refl.
  now rewrite <- combine_rename.
Qed.

(** [sanitize_column_names] never raises: it returns its argument, whose
    labels have gone through [sanitize_label]; no other object changes. *)
Lemma sanitize_column_names_run h r :
  exists h',
    sanitize_column_names r h = (Ok r, h')
    /\ h' r = rename sanitize_label (h r)
    /\ forall r', r' <> r -> h' r' = h r'.
Proof.
  unfold sanitize_column_names.
  eexists. split; [|split].
  - rewrite !set_columns_map. reflexivity.
  - rewrite !upd_same, !rename_rename. reflexivity.
  - intros r' Hr. now rewrite !upd_other.
Qed.

(** Labels taken from the frame are found by [df[labels]]. *)
Lemma lookup_mem c (df : DataFrame) :
  mem c (Pd.columns df) = true -> exists s, Pd.lookup c df = Some s.
Proof.
  induction df as [|[c' s'] df IH]; simpl; [discriminate|].
  rewrite String.eqb_sym.
  destruct (String.eqb c' c); simpl; eauto.
Qed.

Lemma mem_In c l : mem c l = true <-> In c l.
Proof.
  unfold mem. rewrite existsb_exists. split.
  - intros (x & Hx & E). apply String.eqb_eq in E. now subst.
  - intros H. exists c. split; trivial. apply String.eqb_refl.
Qed.

Lemma getitem_ok (df : DataFrame) labels :
  (forall c, In c labels -> In c (Pd.columns df)) ->
  exists sel, Pd.getitem df labels = Ok sel /\ Pd.columns sel = labels.
Proof.
  induction labels as [|c labels IH]; intros H; simpl.
  - now exists [].
  - destruct (@lookup_mem c df) as [s ->].
    { apply mem_In, H. now left. }
    destruct IH as (sel & -> & E).
    { intros c' Hc. apply H. now right. }
    exists ((c, s) :: sel). simpl. now rewrite E.
Qed.

Lemma dummy_cols_incl df prefix c :
  In c (dummy_cols df prefix) -> In c (Pd.columns df).
Proof. unfold dummy_cols. intros H. now apply filter_In in H. Qed.

Lemma columns_setitem df c s c' :
  In c' (Pd.columns df) -> In c' (Pd.columns (Pd.setitem df c s)).
Proof.
  unfold Pd.setitem, Pd.columns. intros H.
  destruct (mem c (map fst df)).
  - rewrite map_map.
    replace (map (fun x => fst (if (fst x =? c)%string then (fst x, s) else x)) df)
      with (map fst df); trivial.
    apply map_ext. intros [a b]; simpl. now destruct (String.eqb a c).
  - rewrite map_app. apply in_or_app. now left.
Qed.

(** The [drop] on line 25 finds every label it is given. *)
Lemma drop_after_setitem df prefix c s :
  Pd.drop (Pd.setitem df c s) (dummy_cols df prefix)
  = Ok (filter (fun col => negb (mem (fst col) (dummy_cols df prefix)))
               (Pd.setitem df c s)).
Proof.
  unfold Pd.drop.
  replace (forallb _ (dummy_cols df prefix)) with true; trivial.
  symmetry. apply forallb_forall. intros c' Hc.
  apply mem_In, columns_setitem, dummy_cols_incl with prefix, Hc.
Qed.

(** The call [undummy(df, prefix)] in terms of the frame held by [df]: an
    exception leaves the store as it was; otherwise the object [df] holds the
    computed frame, [df] is returned, and no other object changes. *)
Lemma undummy_run h r prefix :
  match undummy_frame (h r) prefix with
  | Ok out =>
      exists h', undummy r prefix h = (Ok r, h')
                 /\ h' r = out /\ forall r', r' <> r -> h' r' = h r'
  | Raise e => undummy r prefix h = (Raise e, h)
  end.
Proof.
  unfold undummy_frame, undummy, getitem, idxmax, get_columns, setitem,
    drop_inplace.
  unfold bind, load, ret, lift, save. fold (dummy_cols (h r) prefix).
  destruct (Pd.getitem (h r) (dummy_cols (h r) prefix)) as [sel|e]; trivial.
  destruct (Pd.idxmax_axis1 (h r) sel) as [idx|e]; trivial.
  destruct (Pd.series_str_replace idx prefix EmptyString) as [labels|e];
    trivial.
  rewrite upd_same, drop_after_setitem.
  eexists. split; [reflexivity|]. split.
  - now rewrite upd_same.
  - intros r' Hr. now rewrite !upd_other.
Qed.

Lemma output_of_undummy h r prefix :
  output_of (undummy r prefix h) = undummy_frame (h r) prefix.
Proof.
  pose proof (undummy_run h r prefix) as H.
  destruct (undummy_frame (h r) prefix) as [out|e].
  - destruct H as (h' & -> & E & _). simpl. now rewrite E.
  - now rewrite H.
Qed.

(* ================================================================== *)
(** * Frames: facts *)
(* ================================================================== *)

Lemma nodupb_NoDup l : nodupb l = true <-> NoDup l.
Proof.
  induction l as [|x l IH]; simpl.
  - split; trivial. constructor.
  - rewrite andb_true_iff, negb_true_iff, IH. split.
    + intros [Hx Hl]. constructor; trivial.
      intros Hin. apply mem_In in Hin. congruence.
    + intros H. inversion_clear H as [|? ? Hx Hl]. split; trivial.
      destruct (mem x l) eqn:E; trivial. apply mem_In in E. contradiction.
Qed.

Lemma wf_NoDup df : wf df = true -> NoDup (Pd.columns df).
Proof.
  unfold wf. intros H. apply andb_true_iff in H as [H _].
  now apply nodupb_NoDup.
Qed.

Lemma wf_len df c s : wf df = true -> In (c, s) df -> series_len s = Pd.nrows df.
Proof.
  unfold wf. intros H Hin. apply andb_true_iff in H as [_ H].
  rewrite forallb_forall in H. specialize (H _ Hin). simpl in H.
  now apply Nat.eqb_eq.
Qed.

Lemma lookup_In c s (df : DataFrame) : Pd.lookup c df = Some s -> In (c, s) df.
Proof.
  induction df as [|[c' s'] df IH]; simpl; [discriminate|].
  destruct (String.eqb_spec c' c) as [->|Hne].
  - intros [= ->]. now left.
  - intros H. right. auto.
Qed.

Lemma In_lookup c s (df : DataFrame) :
  NoDup (Pd.columns df) -> In (c, s) df -> Pd.lookup c df = Some s.
Proof.
  induction df as [|[c' s'] df IH]; simpl; [contradiction|].
  intros Hnd Hin. inversion_clear Hnd as [|? ? Hc Hdf].
  destruct (String.eqb_spec c' c) as [->|Hne].
  - destruct Hin as [[= ->]|Hin]; trivial.
    exfalso. apply Hc. change c with (fst (c, s)). now apply in_map.
  - destruct Hin as [[= -> _]|Hin]; [contradiction|]. auto.
Qed.

(** [df[labels]] pairs every label with the column found under it. *)
Lemma getitem_map df labels sel :
  Pd.getitem df labels = Ok sel ->
  Forall2 (fun c col => fst col = c /\ Pd.lookup c df = Some (snd col))
          labels sel.
Proof.
  revert sel. induction labels as [|c labels IH]; simpl; intros sel.
  - intros [= <-]. constructor.
  - destruct (Pd.lookup c df) as [s|] eqn:E; [|discriminate].
    destruct (Pd.getitem df labels) as [sel'|]; [|discriminate].
    intros [= <-]. constructor; auto.
Qed.

(** With distinct labels, selecting by a test on the labels keeps the
    columns that pass it. *)
Lemma getitem_filter (df : DataFrame) (p : string -> bool) :
  NoDup (Pd.columns df) ->
  Pd.getitem df (filter p (Pd.columns df))
  = Ok (filter (fun col => p (fst col)) df).
Proof.
  intros Hnd.
  assert (G : forall part : DataFrame,
             (forall col, In col part -> In col df) ->
             Pd.getitem df (filter p (Pd.columns part))
             = Ok (filter (fun col => p (fst col)) part)).
  { induction part as [|[c s] part IH]; intros Hsub; simpl; trivial.
    destruct (p c) eqn:Ep; simpl.
    - rewrite (@In_lookup c s df Hnd) by (apply Hsub; now left).
      rewrite IH by (intros col Hc; apply Hsub; now right). reflexivity.
    - apply IH. intros col Hc; apply Hsub; now right. }
  apply G. auto.
Qed.

Section Argmax.
Import Pd.

(** The scan [argmax_from]: what it returns, given the column retained on
    entry. *)
Lemma argmax_from_spec row :
  forall best,
    match argmax_from best row with
    | Some c =>
        (exists k v,
            nth_error row k = Some (c, Some v)
            /\ (forall b, best = Some b -> (snd b < v)%Z)
            /\ forall j c' w, nth_error row j = Some (c', Some w) ->
                              (w <= v)%Z /\ (j < k -> (w < v)%Z))
        \/ (exists v, best = Some (c, v)
                      /\ forall j c' w, nth_error row j = Some (c', Some w) ->
                                        (w <= v)%Z)
    | None => best = None
              /\ forall j c' w, nth_error row j <> Some (c', Some w)
    end.
Proof.
  induction row as [|[c [v|]] row IH]; intros best.
  - simpl. destruct best as [[c b]|]; simpl.
    + right. exists b. split; trivial. intros [|j] ? ? [=].
    + split; trivial. intros [|j] ? ?; discriminate.
  - assert (Step : forall nb, (nb = Some (c, v)) ->
              (forall b, best = Some b -> (snd b < v)%Z) ->
              match argmax_from nb row with
              | Some c0 =>
                  (exists k v0,
                      nth_error ((c, Some v) :: row) k = Some (c0, Some v0)
                      /\ (forall b, best = Some b -> (snd b < v0)%Z)
                      /\ forall j c' w,
                        nth_error ((c, Some v) :: row) j = Some (c', Some w) ->
                        (w <= v0)%Z /\ (j < k -> (w < v0)%Z))
                  \/ (exists v0, best = Some (c0, v0)
                        /\ forall j c' w,
                          nth_error ((c, Some v) :: row) j = Some (c', Some w) ->
                          (w <= v0)%Z)
              | None => best = None
                        /\ forall j c' w,
                          nth_error ((c, Some v) :: row) j <> Some (c', Some w)
              end).
    { intros nb -> Hb. specialize (IH (Some (c, v))).
      destruct (argmax_from (Some (c, v)) row) as [c0|].
      - left. destruct IH as [(k & v0 & Hk & Hlt & Hall)|(v0 & [= <- <-] & Hall)].
        + exists (S k), v0. split; trivial. split.
          * intros b Eb. specialize (Hb _ Eb). specialize (Hlt _ eq_refl).
            simpl in Hlt. lia.
          * intros [|j] c' w; simpl.
            -- intros [= <- <-]. specialize (Hlt _ eq_refl). simpl in Hlt.
               split; [lia | intros _; lia].
            -- intros Hj. destruct (Hall _ _ _ Hj) as [Hle Hjk].
               split; trivial. intros Hlt'. apply Hjk. lia.
        + exists 0, v. split; trivial. split; trivial.
          intros [|j] c' w; simpl.
          * intros [= <- <-]. split; [lia | intros Hlt; lia].
          * intros Hj. split; [eauto | intros Hlt; lia].
      - destruct IH as [[=] _]. }
    simpl. destruct best as [[cb b]|].
    + destruct (Z.ltb_spec b v) as [Hlt|Hge].
      * apply Step; trivial. intros b' [= <-]. exact Hlt.
      * specialize (IH (Some (cb, b))).
        destruct (argmax_from (Some (cb, b)) row) as [c0|].
        -- destruct IH as [(k & v0 & Hk & Hb & Hall)|(v0 & [= <- <-] & Hall)].
           ++ left. exists (S k), v0. split; trivial. split; trivial.
              specialize (Hb _ eq_refl). simpl in Hb.
              intros [|j] c' w; simpl.
              ** intros [= <- <-]. split; [lia | intros _; lia].
              ** intros Hj. destruct (Hall _ _ _ Hj) as [Hle Hjk].
                 split; trivial. intros Hlt'. apply Hjk. lia.
           ++ right. exists b. split; trivial.
              intros [|j] c' w; simpl.
              ** intros [= <- <-]. lia.
              ** intros Hj. eauto.
        -- destruct IH as [[=] _].
    + apply Step; trivial. intros b [=].
  - simpl. specialize (IH best).
    destruct (argmax_from best row) as [c0|].
    + destruct IH as [(k & v0 & Hk & Hb & Hall)|(v0 & Eb & Hall)].
      * left. exists (S k), v0. split; trivial. split; trivial.
        intros [|j] c' w; simpl; [discriminate|].
        intros Hj. destruct (Hall _ _ _ Hj) as [Hle Hjk].
        split; trivial. intros Hlt'. apply Hjk. lia.
      * right. exists v0. split; trivial.
        intros [|j] c' w; simpl; [discriminate|]. eauto.
    + destruct IH as [Eb Hall]. split; trivial.
      intros [|j] c' w; simpl; [discriminate|]. apply Hall.
Qed.

End Argmax.

Section Selection.
Import Pd.

Lemma row_of_selection df labels : forall sel blk i,
  getitem df labels = Ok sel ->
  numeric_block sel = Some blk ->
  row_of blk i = map (fun c => (c, value_at df c i)) labels.
Proof.
  intros sel blk i Hsel. apply getitem_map in Hsel.
  revert blk. induction Hsel as [|c [c' s] labels sel [Hc Hl] _ IH];
    intros blk; simpl.
  - now intros [= <-].
  - simpl in Hc, Hl. subst c'. destruct s as [l|l]; [discriminate|].
    destruct (numeric_block sel) as [blk'|]; [|discriminate].
    intros [= <-]. simpl. unfold value_at at 1. rewrite Hl.
    f_equal. now apply IH.
Qed.

Lemma numeric_block_ok df prefix sel :
  indicators_numeric df prefix = true ->
  getitem df (dummy_cols df prefix) = Ok sel ->
  exists blk, numeric_block sel = Some blk.
Proof.
  intros Hnum Hsel. apply getitem_map in Hsel.
  assert (Hin : forall c, In c (dummy_cols df prefix) ->
                          PyStr.startswith c prefix = true).
  { intros c Hc. unfold dummy_cols in Hc. now apply filter_In in Hc. }
  induction Hsel as [|c [c' s] labels sel [Hc Hl] _ IH]; simpl.
  - now exists [].
  - simpl in Hc, Hl. subst c'.
    destruct IH as [blk ->]; [intros; apply Hin; now right|].
    apply lookup_In in Hl.
    unfold indicators_numeric in Hnum. rewrite forallb_forall in Hnum.
    specialize (Hnum _ Hl). simpl in Hnum.
    rewrite (Hin c (or_introl eq_refl)) in Hnum. simpl in Hnum.
    destruct s; [discriminate | eauto].
Qed.

Lemma nrows_selection df labels sel :
  wf df = true -> labels <> [] -> getitem df labels = Ok sel ->
  sel <> [] /\ nrows sel = nrows df.
Proof.
  intros Hwf Hne Hsel. apply getitem_map in Hsel.
  destruct Hsel as [|c [c' s] labels sel [Hc Hl] _]; [congruence|].
  split; [discriminate|]. simpl in *. subst c'.
  apply lookup_In in Hl. now apply wf_len with c.
Qed.

(** Outcome of [idxmax] on the columns [undummy] selects. *)
Lemma idxmax_selection df prefix :
  wf df = true ->
  dummy_cols df prefix <> [] ->
  indicators_numeric df prefix = true ->
  exists sel,
    getitem df (dummy_cols df prefix) = Ok sel
    /\ idxmax_axis1 df sel
       = Ok (Object (map (fun i => argmax_from None
                                     (map (fun c => (c, value_at df c i))
                                          (dummy_cols df prefix)))
                         (seq 0 (nrows df)))).
Proof.
  intros Hwf Hne Hnum.
  destruct (@getitem_ok df (dummy_cols df prefix)) as (sel & Hsel & _).
  { intros c. apply dummy_cols_incl. }
  exists sel. split; trivial.
  destruct (numeric_block_ok _ _ _ Hnum Hsel) as [blk Hblk].
  destruct (@nrows_selection df _ sel Hwf Hne Hsel) as [Hsne Hrows].
  unfold idxmax_axis1. destruct (nrows df) as [|n] eqn:En.
  - destruct df as [|col df]; [now elim Hne | reflexivity].
  - destruct sel as [|col sel]; [congruence|].
    rewrite Hblk. do 2 f_equal. apply map_ext. intros i.
    now rewrite (@row_of_selection df _ _ blk i Hsel Hblk).
Qed.

(** The scan from the left, started with no column retained, returns the
    first column holding the maximum. *)
Lemma argmax_first df cols i :
  first_argmax df cols i
    (argmax_from None (map (fun c => (c, value_at df c i)) cols)).
Proof.
  pose proof (argmax_from_spec (map (fun c => (c, value_at df c i)) cols) None)
    as H.
  destruct (argmax_from None _) as [c|]; simpl.
  - destruct H as [(k & v & Hk & _ & Hall)|(v & [=] & _)].
    rewrite nth_error_map in Hk.
    destruct (nth_error cols k) as [c0|] eqn:Ek; [|discriminate].
    simpl in Hk. injection Hk as -> Hv.
    exists k, v. split; [trivial|]. split; [trivial|].
    intros j c' w Hj Hw. eapply Hall.
    rewrite nth_error_map, Hj. simpl. now rewrite Hw.
  - destruct H as [_ Hall]. intros c' Hin.
    destruct (value_at df c' i) as [w|] eqn:Ew; trivial.
    apply In_nth_error in Hin as [j Hj]. exfalso.
    apply (Hall j c' w). rewrite nth_error_map, Hj. simpl. now rewrite Ew.
Qed.

End Selection.

Section Decode.
Import Pd.

Lemma undummy_frame_selected df prefix :
  wf df = true ->
  dummy_cols df prefix <> [] ->
  indicators_numeric df prefix = true ->
  undummy_frame df prefix
  = drop (setitem df (PyStr.rstrip "_" prefix)
                  (Object (str_replace (selected df prefix) prefix EmptyString)))
         (dummy_cols df prefix).
Proof.
  intros Hwf Hne Hnum.
  destruct (idxmax_selection _ _ Hwf Hne Hnum) as (sel & Hsel & Hidx).
  unfold undummy_frame. now rewrite Hsel, Hidx.
Qed.

(** A selection without columns, in a frame that has rows. *)
Lemma undummy_frame_no_match df prefix :
  dummy_cols df prefix = [] -> 0 < nrows df ->
  undummy_frame df prefix = Raise ValueError.
Proof.
  intros Hnone Hrows. unfold undummy_frame, idxmax_axis1.
  rewrite Hnone. simpl. destruct (nrows df); [lia | reflexivity].
Qed.

(** The exceptions of [undummy]. *)
Lemma undummy_frame_raises df prefix e :
  undummy_frame df prefix = Raise e ->
  e = ValueError \/ e = TypeError \/ e = AttributeError.
Proof.
  unfold undummy_frame.
  destruct (@getitem_ok df (dummy_cols df prefix)) as (sel & -> & _).
  { intros c. apply dummy_cols_incl. }
  destruct (idxmax_axis1 df sel) as [idx|e'] eqn:Eidx.
  - destruct idx as [l|l]; cbn [series_str_replace].
    + rewrite drop_after_setitem. discriminate.
    + intros [= <-]. auto.
  - intros [= <-]. unfold idxmax_axis1 in Eidx.
    destruct (nrows df).
    + destruct df; discriminate.
    + destruct sel; [injection Eidx as <-; auto|].
      destruct (numeric_block _); [discriminate|].
      destruct (string_block _); [discriminate|].
      injection Eidx as <-. auto.
Qed.

(** Whatever [undummy] compares, the frame it leaves has the columns that do
    not start with the prefix and, when the name is new, one column after
    them. *)
Lemma undummy_frame_shape df prefix out :
  undummy_frame df prefix = Ok out ->
  exists values,
    List.length values = nrows df
    /\ out = filter (fun col => negb (mem (fst col) (dummy_cols df prefix)))
                    (setitem df (PyStr.rstrip "_" prefix) (Object values)).
Proof.
  unfold undummy_frame.
  destruct (getitem df (dummy_cols df prefix)) as [sel|e]; [|discriminate].
  destruct (idxmax_axis1 df sel) as [idx|e] eqn:Eidx; [|discriminate].
  destruct idx as [l|l]; cbn [series_str_replace]; [|discriminate].
  rewrite drop_after_setitem. intros [= <-].
  exists (str_replace l prefix EmptyString). split; trivial.
  unfold str_replace. rewrite length_map.
  unfold idxmax_axis1 in Eidx. destruct (nrows df) as [|n].
  - destruct df; [discriminate|]. injection Eidx as <-. reflexivity.
  - destruct sel; [discriminate|].
    destruct (numeric_block _).
    + injection Eidx as <-. simpl. now rewrite length_map, length_seq.
    + destruct (string_block _); [|discriminate].
      injection Eidx as <-. simpl. now rewrite length_map, length_seq.
Qed.

Lemma mem_dummy_cols df prefix c :
  In c (columns df) ->
  mem c (dummy_cols df prefix) = PyStr.startswith c prefix.
Proof.
  intros Hin. unfold dummy_cols.
  destruct (PyStr.startswith c prefix) eqn:E.
  - apply mem_In, filter_In. now split.
  - destruct (mem c _) eqn:M; trivial.
    apply mem_In, filter_In in M as [_ M]. congruence.
Qed.

Lemma drop_filter_others df prefix :
  filter (fun col => negb (mem (fst col) (dummy_cols df prefix))) df
  = others df prefix.
Proof.
  unfold others. apply filter_ext_in. intros [c s] Hin. simpl.
  rewrite mem_dummy_cols; trivial.
  change c with (fst (c, s)). now apply in_map.
Qed.

(** When no column bears the label of the reconstructed column yet, the
    frame computed is: the columns not selected, in their order, then the
    reconstructed column. *)
Lemma undummy_frame_fresh df prefix :
  wf df = true ->
  dummy_cols df prefix <> [] ->
  indicators_numeric df prefix = true ->
  ~ In (PyStr.rstrip "_" prefix) (columns df) ->
  undummy_frame df prefix
  = Ok (others df prefix
        ++ [(PyStr.rstrip "_" prefix,
             Object (str_replace (selected df prefix) prefix EmptyString))]).
Proof.
  intros Hwf Hne Hnum Hfresh.
  rewrite undummy_frame_selected, drop_after_setitem by trivial.
  f_equal. unfold setitem.
  destruct (mem (PyStr.rstrip "_" prefix) (columns df)) eqn:M.
  { apply mem_In in M. contradiction. }
  rewrite filter_app, drop_filter_others. f_equal. simpl.
  destruct (mem (PyStr.rstrip "_" prefix) (dummy_cols df prefix)) eqn:M';
    trivial.
  apply mem_In, dummy_cols_incl in M'. contradiction.
Qed.

Lemma dropped_fresh df prefix s :
  ~ In (PyStr.rstrip "_" prefix) (columns df) ->
  filter (fun col => negb (mem (fst col) (dummy_cols df prefix)))
         (setitem df (PyStr.rstrip "_" prefix) s)
  = others df prefix ++ [(PyStr.rstrip "_" prefix, s)].
Proof.
  intros Hfresh. unfold setitem.
  destruct (mem (PyStr.rstrip "_" prefix) (columns df)) eqn:M.
  { apply mem_In in M. contradiction. }
  rewrite filter_app, drop_filter_others. f_equal. simpl.
  destruct (mem (PyStr.rstrip "_" prefix) (dummy_cols df prefix)) eqn:M';
    trivial.
  apply mem_In, dummy_cols_incl in M'. contradiction.
Qed.

(** Whenever [undummy] returns and the label of the reconstructed column is
    new: the columns not selected, in their order, then one column. *)
Lemma undummy_frame_ok_fresh df prefix out :
  ~ In (PyStr.rstrip "_" prefix) (columns df) ->
  undummy_frame df prefix = Ok out ->
  exists values,
    List.length values = nrows df
    /\ out = others df prefix ++ [(PyStr.rstrip "_" prefix, Object values)].
Proof.
  intros Hfresh Hout.
  destruct (undummy_frame_shape _ _ _ Hout) as (values & Hlen & ->).
  exists values. split; trivial. now apply dropped_fresh.
Qed.

Lemma complete_ok l :
  forallb (fun x : option string => match x with
                                    | Some _ => true
                                    | None => false
                                    end) l = true ->
  exists xs, complete l = Some xs.
Proof.
  induction l as [|[x|] l IH]; simpl; intros H.
  - now exists [].
  - destruct (IH H) as [xs ->]. eauto.
  - discriminate.
Qed.

Lemma string_block_ok df prefix sel :
  indicators_strings df prefix = true ->
  getitem df (dummy_cols df prefix) = Ok sel ->
  exists blk, string_block sel = Some blk.
Proof.
  intros Hstr Hsel. apply getitem_map in Hsel.
  assert (Hin : forall c, In c (dummy_cols df prefix) ->
                          PyStr.startswith c prefix = true).
  { intros c Hc. unfold dummy_cols in Hc. now apply filter_In in Hc. }
  induction Hsel as [|c [c' s] labels sel [Hc Hl] _ IH]; simpl.
  - now exists [].
  - simpl in Hc, Hl. subst c'.
    destruct IH as [blk ->]; [intros; apply Hin; now right|].
    apply lookup_In in Hl.
    unfold indicators_strings in Hstr. rewrite forallb_forall in Hstr.
    specialize (Hstr _ Hl). simpl in Hstr.
    rewrite (Hin c (or_introl eq_refl)) in Hstr. simpl in Hstr.
    destruct s as [l|l]; [|discriminate].
    destruct (complete_ok _ Hstr) as [xs ->]. eauto.
Qed.

(** [undummy] returns when it selects a column and the columns it selects
    are all numeric, or all hold strings and nothing else. *)
Lemma undummy_frame_succeeds df prefix :
  dummy_cols df prefix <> [] ->
  indicators_numeric df prefix = true \/ indicators_strings df prefix = true ->
  exists out, undummy_frame df prefix = Ok out.
Proof.
  intros Hne Hkind. unfold undummy_frame.
  destruct (@getitem_ok df (dummy_cols df prefix)) as (sel & Hsel & Hcols).
  { intros c. apply dummy_cols_incl. }
  rewrite Hsel.
  assert (Hidx : exists l, idxmax_axis1 df sel = Ok (Object l)).
  { unfold idxmax_axis1. destruct (nrows df).
    - destruct df as [|col df]; [now elim Hne | eauto].
    - destruct sel as [|col sel]; [simpl in Hcols; congruence|].
      destruct (numeric_block (col :: sel)) as [blk|] eqn:Eblk; [eauto|].
      destruct Hkind as [Hnum|Hstr].
      + destruct (numeric_block_ok _ _ _ Hnum Hsel) as [blk Hblk]. congruence.
      + destruct (string_block_ok _ _ _ Hstr Hsel) as [blk ->]. eauto. }
  destruct Hidx as [l ->]. cbn [series_str_replace].
  rewrite drop_after_setitem. eauto.
Qed.

(** A row that has a value has a label. *)
Lemma argmax_has_label df prefix i :
  row_has_value df prefix i = true ->
  exists c, argmax_from None (map (fun c => (c, value_at df c i))
                                  (dummy_cols df prefix)) = Some c.
Proof.
  intros H. pose proof (argmax_first df (dummy_cols df prefix) i) as F.
  destruct (argmax_from None _) as [c|]; [eauto|].
  simpl in F. unfold row_has_value in H.
  apply existsb_exists in H as (c & Hc & Hv).
  rewrite (F c Hc) in Hv. discriminate.
Qed.

Lemma selected_nth df prefix i :
  i < nrows df ->
  nth i (selected df prefix) None
  = argmax_from None (map (fun c => (c, value_at df c i))
                          (dummy_cols df prefix)).
Proof.
  intros Hi. unfold selected.
  rewrite (nth_indep _ None
             (argmax_from None
                (map (fun c => (c, value_at df c 0)) (dummy_cols df prefix))))
    by now rewrite length_map, length_seq.
  rewrite (map_nth (fun i => argmax_from None
                               (map (fun c => (c, value_at df c i))
                                    (dummy_cols df prefix)))
                   (seq 0 (nrows df)) 0 i).
  now rewrite seq_nth.
Qed.

Lemma rows_have_value_at df prefix i :
  rows_have_value df prefix = true -> i < nrows df ->
  row_has_value df prefix i = true.
Proof.
  unfold rows_have_value. rewrite forallb_forall. intros H Hi.
  apply H, in_seq. lia.
Qed.

Lemma decodable_numeric df prefix :
  decodable df prefix = true -> indicators_numeric df prefix = true.
Proof.
  unfold decodable. intros H.
  apply andb_true_iff in H as [H _]. now apply andb_true_iff in H as [H _].
Qed.

End Decode.

(* ================================================================== *)
(** * Encoding: facts *)
(* ================================================================== *)

Section DummiesFacts.

Variable A : Type.
Variable eq_dec : forall x y : A, {x = y} + {x <> y}.
Variable leb : A -> A -> bool.

Lemma In_present (v : A) (l : list (option A)) : In v (present l) <-> In (Some v) l.
Proof.
  clear eq_dec leb. induction l as [|[x|] l IH]; simpl.
  - tauto.
  - rewrite IH. split; intros [H|H]; auto; left; congruence.
  - rewrite IH. split; [auto | intros [H|H]; [discriminate | trivial]].
Qed.

Lemma insert_sorted_perm (x : A) (l : list A) : Permutation (insert_sorted leb x l) (x :: l).
Proof.
  induction l as [|y l IH]; simpl; trivial.
  destruct (leb x y); trivial.
  rewrite IH. apply perm_swap.
Qed.

Lemma sort_perm (l : list A) : Permutation (sort leb l) l.
Proof.
  induction l as [|x l IH]; simpl; trivial.
  rewrite insert_sorted_perm. now constructor.
Qed.

Lemma In_levels (v : A) (l : list (option A)) : In v (levels eq_dec leb l) <-> In (Some v) l.
Proof.
  unfold levels. rewrite <- In_present. split; intros H.
  - apply (Permutation_in _ (sort_perm _)) in H. now apply nodup_In in H.
  - apply (Permutation_in _ (Permutation_sym (sort_perm _))).
    now apply nodup_In.
Qed.

Lemma NoDup_levels (l : list (option A)) : NoDup (levels eq_dec leb l).
Proof.
  unfold levels. eapply Permutation_NoDup.
  - symmetry. apply sort_perm.
  - apply NoDup_nodup.
Qed.

(** Any duplicate-free enumeration of the observed values has as many
    elements as there are levels. *)
Lemma length_levels (l : list (option A)) (ks : list A) :
  NoDup ks -> (forall v, In v ks <-> In (Some v) l) ->
  List.length (levels eq_dec leb l) = List.length ks.
Proof.
  intros Hnd Hks. apply Permutation_length, NoDup_Permutation; trivial.
  - apply NoDup_levels.
  - intros v. now rewrite In_levels, Hks.
Qed.

Lemma length_dummies (fmt : A -> string) prefix sep (l : list (option A)) :
  List.length (dummies eq_dec leb fmt prefix sep l)
  = List.length (levels eq_dec leb l).
Proof. unfold dummies. apply length_map. Qed.

Lemma columns_dummies (fmt : A -> string) prefix sep (l : list (option A)) :
  Pd.columns (dummies eq_dec leb fmt prefix sep l)
  = map (fun v => (prefix ++ sep ++ fmt v)%string) (levels eq_dec leb l).
Proof. unfold Pd.columns, dummies. rewrite map_map. reflexivity. Qed.

(** Every cell of an indicator column is 0 or 1, and the column has the
    length of the encoded one. *)
Lemma indicator_cells (v : A) (l : list (option A)) :
  exists vals,
    indicator eq_dec v l = Numeric vals
    /\ List.length vals = List.length l
    /\ forall x, In x vals -> x = Some 0%Z \/ x = Some 1%Z.
Proof.
  unfold indicator. eexists. split; [reflexivity|]. split.
  - apply length_map.
  - intros x Hx. apply in_map_iff in Hx as ([y|] & <- & _); auto.
    destruct (eq_dec y v); auto.
Qed.

Lemma dummies_cells (fmt : A -> string) prefix sep (l : list (option A)) col :
  In col (dummies eq_dec leb fmt prefix sep l) ->
  exists vals,
    snd col = Numeric vals
    /\ List.length vals = List.length l
    /\ forall x, In x vals -> x = Some 0%Z \/ x = Some 1%Z.
Proof.
  unfold dummies. intros H. apply in_map_iff in H as (v & <- & _).
  apply indicator_cells.
Qed.

(** The cell of the indicator column of level [v] on a row holding [y]. *)
Lemma indicator_nth (v : A) (l : list (option A)) i (y : A) :
  nth_error l i = Some (Some y) ->
  match indicator eq_dec v l with
  | Numeric vals => nth i vals None = Some (if eq_dec y v then 1%Z else 0%Z)
  | Object _ => False
  end.
Proof.
  unfold indicator. intros H.
  apply nth_error_nth with (d := None).
  now rewrite nth_error_map, H.
Qed.

End DummiesFacts.

Section EncodeFacts.
Import Pd.

Lemma prefix_append p s : String.prefix p (p ++ s) = true.
Proof.
  induction p as [|a p IH]; simpl.
  - now destruct s.
  - destruct (ascii_dec a a); [exact IH | congruence].
Qed.

Lemma append_inj p a b : (p ++ a = p ++ b)%string -> a = b.
Proof. induction p as [|c p IH]; simpl; [trivial | intros [= H]; auto]. Qed.

Lemma kept_single (data : DataFrame) C :
  kept data [C] = filter (fun col => negb (String.eqb (fst col) C)) data.
Proof.
  unfold kept. apply filter_ext. intros col. simpl. now rewrite orb_false_r.
Qed.

(** The shape of the encoded frame, for one encoded column. *)
Lemma get_dummies_one data C s :
  lookup C data = Some s ->
  get_dummies data [C] = Ok (kept data [C] ++ get_dummies_1d C "_" s).
Proof.
  intros H. unfold get_dummies. simpl. rewrite H. simpl.
  now rewrite app_nil_r.
Qed.

(** With distinct labels, exactly the encoded column leaves the frame. *)
Lemma kept_split (data : DataFrame) C s :
  NoDup (columns data) -> In (C, s) data ->
  exists pre post,
    data = pre ++ (C, s) :: post /\ kept data [C] = pre ++ post.
Proof.
  intros Hnd Hin. apply in_split in Hin as (pre & post & ->).
  exists pre, post. split; trivial.
  unfold columns in Hnd. rewrite map_app in Hnd. simpl in Hnd.
  pose proof (NoDup_remove_2 _ _ _ Hnd) as Hnot.
  rewrite kept_single, filter_app. simpl. rewrite String.eqb_refl. simpl.
  assert (F : forall part : DataFrame,
             ~ In C (map fst part) ->
             filter (fun col => negb (String.eqb (fst col) C)) part = part).
  { induction part as [|[c x] part IH]; simpl; trivial.
    intros Hc. destruct (String.eqb_spec c C) as [->|Hne]; simpl.
    - exfalso. apply Hc. now left.
    - f_equal. apply IH. tauto. }
  rewrite !F; trivial; intros Hc; apply Hnot, in_or_app; auto.
Qed.

Lemma columns_kept (data : DataFrame) C c :
  In c (columns (kept data [C])) <-> In c (columns data) /\ c <> C.
Proof.
  rewrite kept_single. unfold columns. rewrite !in_map_iff. split.
  - intros ([c' s] & <- & H). apply filter_In in H as [H E]. simpl in *.
    split; [exists (c', s); auto|].
    now destruct (String.eqb_spec c' C).
  - intros [([c' s] & <- & H) Hne]. exists (c', s). split; trivial.
    apply filter_In. split; trivial. simpl in *.
    now destruct (String.eqb_spec c' C).
Qed.

End EncodeFacts.

Section OneHotRows.
Import Pd.

Variable label : string -> string.
Variable y : string.

Local Abbreviation cell :=
  (fun v : string => (label v, Some (if string_dec y v then 1%Z else 0%Z))).

(** Once a column holding 1 is retained, the columns holding 0 that follow
    do not replace it. *)
Lemma argmax_from_zeros lv c b :
  (0 <= b)%Z -> ~ In y lv ->
  argmax_from (Some (c, b)) (map cell lv) = Some c.
Proof.
  intros Hb. induction lv as [|v lv IH]; simpl; trivial.
  intros Hy. destruct (string_dec y v) as [->|_]; [tauto|].
  destruct (Z.ltb_spec b 0); [lia|]. apply IH. tauto.
Qed.

(** On a one-hot row the scan returns the column of the level held. *)
Lemma argmax_from_onehot lv best :
  NoDup lv -> In y lv ->
  best = None \/ (exists c, best = Some (c, 0%Z)) ->
  argmax_from best (map cell lv) = Some (label y).
Proof.
  intros Hnd. revert best.
  induction Hnd as [|v lv Hv Hnd IH]; intros best Hin Hbest; [contradiction|].
  simpl. destruct (string_dec y v) as [<-|Hne].
  - assert (E : argmax_from (Some (label y, 1%Z)) (map cell lv)
                = Some (label y)) by (apply argmax_from_zeros; [lia|trivial]).
    destruct Hbest as [->|[c ->]]; trivial.
  - destruct Hin as [->|Hin]; [congruence|].
    destruct Hbest as [->|[c ->]].
    + apply IH; eauto.
    + simpl. apply IH; eauto.
Qed.

End OneHotRows.

Section StringFacts2.

Lemma append_assoc (a b c : string) : ((a ++ b) ++ c = a ++ b ++ c)%string.
Proof. induction a as [|x a IH]; simpl; congruence. Qed.

Lemma rstrip_append_us C :
  PyStr.rstrip "_" (C ++ "_") = PyStr.rstrip "_" C.
Proof.
  induction C as [|c C IH]; trivial.
  change ((String c C ++ "_")%string) with (String c (C ++ "_")).
  now rewrite !PyStrFacts.rstrip_eq, IH.
Qed.

Lemma startswith_length c p :
  PyStr.startswith c p = true -> String.length p <= String.length c.
Proof.
  unfold PyStr.startswith. revert c.
  induction p as [|a p IH]; intros [|b c]; simpl; try lia; try discriminate.
  destruct (ascii_dec a b); [|discriminate]. intros H. apply IH in H. lia.
Qed.

Lemma length_append (a b : string) :
  String.length (a ++ b) = String.length a + String.length b.
Proof. induction a as [|x a IH]; simpl; congruence. Qed.

(** A label does not start with itself followed by the separator. *)
Lemma not_startswith_longer C : PyStr.startswith C (C ++ "_") = false.
Proof.
  destruct (PyStr.startswith C (C ++ "_")) eqn:E; trivial.
  apply startswith_length in E. rewrite length_append in E. simpl in E. lia.
Qed.

Lemma NoDup_map_inj {A B} (f : A -> B) l :
  (forall a b, f a = f b -> a = b) -> NoDup l -> NoDup (map f l).
Proof.
  intros Hinj. induction 1 as [|x l Hx Hnd IH]; simpl; constructor; trivial.
  intros Hin. apply in_map_iff in Hin as (z & E & Hz).
  apply Hinj in E. now subst.
Qed.

End StringFacts2.

Lemma map_seq_nth {A B} (g : A -> B) (d : A) (l : list A) :
  map (fun i => g (nth i l d)) (seq 0 (List.length l)) = map g l.
Proof.
  induction l as [|x l IH]; simpl; trivial.
  f_equal. rewrite <- seq_shift, map_map. exact IH.
Qed.

Lemma wf_intro (df : DataFrame) n :
  NoDup (Pd.columns df) ->
  (forall col, In col df -> series_len (snd col) = n) ->
  wf df = true /\ (df <> [] -> Pd.nrows df = n).
Proof.
  intros Hnd Hlen.
  assert (Hn : df <> [] -> Pd.nrows df = n).
  { destruct df as [|[c s] df]; [congruence|]. intros _. simpl.
    apply (Hlen (c, s)). now left. }
  split; trivial. unfold wf. apply andb_true_iff. split.
  - now apply nodupb_NoDup.
  - apply forallb_forall. intros col Hin. apply Nat.eqb_eq.
    rewrite Hn; [auto | intros ->; contradiction].
Qed.

Lemma filter_none {A} (p : A -> bool) l :
  (forall x, In x l -> p x = false) -> filter p l = [].
Proof.
  induction l as [|x l IH]; simpl; trivial.
  intros H. rewrite (H x (or_introl eq_refl)). apply IH. auto.
Qed.

(** ** The encoded frame of a column of labels *)

Section Encoded.
Import Pd.

Variable data : DataFrame.
Variable C : string.
Variable l : list (option string).

Hypothesis Hwf : wf data = true.
Hypothesis Hcol : lookup C data = Some (Object l).

Local Abbreviation P := (C ++ "_")%string.
Local Abbreviation label := (fun v : string => (C ++ "_" ++ v)%string).
Local Abbreviation lv := (levels string_dec String.leb l).
Local Abbreviation block := (dummies string_dec String.leb (fun v => v) C "_" l).
Local Abbreviation enc := (kept data [C] ++ block).

Lemma encoded_shape : get_dummies data [C] = Ok enc.
Proof. now rewrite (get_dummies_one data C _ Hcol). Qed.

Lemma column_in_data : In (C, Object l) data.
Proof. now apply lookup_In. Qed.

Lemma nrows_data : nrows data = List.length l.
Proof. symmetry. apply (wf_len data C (Object l) Hwf column_in_data). Qed.

Lemma columns_block : columns block = map label lv.
Proof. apply columns_dummies. Qed.

Lemma label_inj a b : label a = label b -> a = b.
Proof. intros H. apply append_inj in H. now injection H. Qed.

Lemma NoDup_columns_block : NoDup (columns block).
Proof.
  rewrite columns_block. apply NoDup_map_inj.
  - exact label_inj.
  - apply NoDup_levels.
Qed.

Lemma block_startswith c : In c (columns block) -> PyStr.startswith c P = true.
Proof.
  rewrite columns_block. intros H. apply in_map_iff in H as (v & <- & _).
  unfold PyStr.startswith.
  change (C ++ "_" ++ v)%string with (C ++ String "_" v)%string.
  replace (C ++ String "_" v)%string with (P ++ v)%string
    by (now rewrite append_assoc).
  apply prefix_append.
Qed.

Lemma NoDup_columns_kept : NoDup (columns (kept data [C])).
Proof.
  destruct (kept_split data C (Object l) (wf_NoDup _ Hwf) column_in_data)
    as (pre & post & E & ->).
  pose proof (wf_NoDup _ Hwf) as Hnd. rewrite E in Hnd.
  unfold columns in *. rewrite map_app in *. simpl in Hnd.
  now apply NoDup_remove_1 in Hnd.
Qed.

Lemma block_len col : In col block -> series_len (snd col) = List.length l.
Proof.
  intros H. apply dummies_cells in H as (vals & E & Hlen & _).
  now rewrite E.
Qed.

Lemma kept_len col :
  In col (kept data [C]) -> series_len (snd col) = List.length l.
Proof.
  unfold kept. intros H. apply filter_In in H as [H _].
  destruct col as [c s]. rewrite <- nrows_data. now apply wf_len with c.
Qed.

(** Rows holding a label give a level. *)
Hypothesis Hlabels : forall x, In x l -> x <> None.

Lemma row_label i :
  i < List.length l -> exists y, nth_error l i = Some (Some y) /\ In y lv.
Proof.
  intros Hi. destruct (nth_error l i) as [x|] eqn:E.
  - pose proof (nth_error_In _ _ E) as Hin.
    destruct x as [y|]; [|now apply Hlabels in Hin].
    exists y. split; trivial. now apply In_levels.
  - apply nth_error_Some in Hi. contradiction.
Qed.

(** The remaining columns of the input do not bear the prefix. *)
Hypothesis Hfree :
  forall c, In c (columns data) -> c <> C -> PyStr.startswith c P = false.

Lemma kept_not_startswith c :
  In c (columns (kept data [C])) -> PyStr.startswith c P = false.
Proof. intros H. apply columns_kept in H as [H Hne]. auto. Qed.

Lemma NoDup_columns_enc : NoDup (columns enc).
Proof.
  unfold columns. rewrite map_app. apply NoDup_app.
  - apply NoDup_columns_kept.
  - apply NoDup_columns_block.
  - intros c Hk Hb. apply kept_not_startswith in Hk.
    apply block_startswith in Hb. congruence.
Qed.

Lemma wf_enc : wf enc = true /\ (enc <> [] -> nrows enc = List.length l).
Proof.
  apply wf_intro.
  - apply NoDup_columns_enc.
  - intros col H. apply in_app_or in H as [H|H];
      [now apply kept_len | now apply block_len].
Qed.

Lemma dummy_cols_enc : dummy_cols enc P = columns block.
Proof.
  unfold dummy_cols, columns. rewrite map_app, filter_app.
  replace (filter _ (map fst (kept data [C]))) with (@nil string).
  - simpl. apply forallb_filter_id. apply forallb_forall.
    intros c Hc. now apply block_startswith.
  - symmetry. apply filter_none. intros c Hc.
    now apply kept_not_startswith.
Qed.

Lemma indicators_numeric_enc : indicators_numeric enc P = true.
Proof.
  unfold indicators_numeric. rewrite forallb_app. apply andb_true_iff.
  split; apply forallb_forall; intros [c s] H; simpl.
  - rewrite kept_not_startswith; trivial.
    change c with (fst (c, s)). now apply in_map.
  - apply dummies_cells in H as (vals & E & _). simpl in E. subst s.
    apply orb_true_r.
Qed.

Lemma others_enc : others enc P = kept data [C].
Proof.
  unfold others. rewrite filter_app.
  rewrite (filter_none _ block).
  - rewrite app_nil_r. apply forallb_filter_id, forallb_forall.
    intros [c s] H. simpl. rewrite kept_not_startswith; trivial.
    change c with (fst (c, s)). now apply in_map.
  - intros [c s] H. simpl. rewrite block_startswith; trivial.
    change c with (fst (c, s)). now apply in_map.
Qed.

(** The cell of the indicator column of level [v] on a row holding [y]. *)
Lemma value_at_enc v i y :
  In v lv -> nth_error l i = Some (Some y) ->
  value_at enc (label v) i = Some (if string_dec y v then 1%Z else 0%Z).
Proof.
  intros Hv Hi. unfold value_at.
  rewrite (In_lookup (label v) (indicator string_dec v l) enc).
  - exact (indicator_nth _ string_dec v l i y Hi).
  - apply NoDup_columns_enc.
  - apply in_or_app. right. unfold dummies.
    apply in_map_iff. exists v. now split.
Qed.

Lemma block_nonempty : l <> [] -> block <> [].
Proof.
  intros Hne.
  assert (Hpos : 0 < List.length l)
    by (clear - Hne; destruct l; simpl; [congruence | lia]).
  destruct (row_label 0 Hpos) as (y & _ & Hy).
  unfold dummies. intros H. apply map_eq_nil in H.
  rewrite H in Hy. contradiction.
Qed.

(** On every row the column selected is the one of the label held. *)
Lemma selected_enc : l <> [] -> selected enc P = map (option_map label) l.
Proof.
  intros Hne. unfold selected.
  assert (Hrows : nrows enc = List.length l).
  { apply wf_enc. intros Henc. apply app_eq_nil in Henc as [_ Henc].
    now apply block_nonempty in Henc. }
  rewrite Hrows, dummy_cols_enc, columns_block.
  rewrite <- (map_seq_nth (option_map label) None l).
  apply map_ext_in. intros i Hi. apply in_seq in Hi.
  destruct (row_label i) as (y & Hy & Hin); [lia|].
  rewrite (nth_error_nth _ _ None Hy). simpl.
  rewrite map_map.
  rewrite (map_ext_in _ (fun v => (label v,
                                    Some (if string_dec y v then 1%Z else 0%Z)))).
  - apply (argmax_from_onehot label y); auto. apply NoDup_levels.
  - intros v Hv. cbv beta.
    apply f_equal2; [reflexivity | exact (value_at_enc v i y Hv Hy)].
Qed.

(** Removing the prefix wherever it occurs in an indicator label leaves
    the level. *)
Hypothesis Hstrip :
  forall v, In (Some v) l -> PyStr.replace (C ++ "_" ++ v) P EmptyString = v.

Lemma replaced_enc : str_replace (map (option_map label) l) P EmptyString = l.
Proof.
  unfold str_replace. rewrite map_map. rewrite <- (map_id l) at 2.
  apply map_ext_in. intros [v|] Hin; [|reflexivity].
  cbv beta. unfold option_map. f_equal. exact (Hstrip v Hin).
Qed.

(** The encoded column has a row, and its label no trailing underscore. *)
Hypothesis Hrows : l <> [].
Hypothesis Hname : PyStr.rstrip "_" C = C.

Lemma dummy_cols_enc_nonempty : dummy_cols enc P <> [].
Proof.
  rewrite dummy_cols_enc. intros H. apply map_eq_nil in H.
  now apply block_nonempty in H.
Qed.

Lemma fresh_enc : ~ In (PyStr.rstrip "_" P) (columns enc).
Proof.
  rewrite rstrip_append_us, Hname. unfold columns. rewrite map_app.
  intros H. apply in_app_or in H as [H|H].
  - apply columns_kept in H. tauto.
  - apply block_startswith in H. rewrite not_startswith_longer in H.
    discriminate.
Qed.

(** Decoding the encoded frame. *)
Lemma undummy_frame_enc :
  undummy_frame enc P = Ok (kept data [C] ++ [(C, Object l)]).
Proof.
  rewrite undummy_frame_fresh.
  - now rewrite others_enc, selected_enc, replaced_enc, rstrip_append_us,
      Hname.
  - apply wf_enc.
  - apply dummy_cols_enc_nonempty.
  - apply indicators_numeric_enc.
  - apply fresh_enc.
Qed.

Lemma kept_permutation : Permutation (kept data [C] ++ [(C, Object l)]) data.
Proof.
  destruct (kept_split data C (Object l) (wf_NoDup _ Hwf) column_in_data)
    as (pre & post & E & ->).
  rewrite E. rewrite <- app_assoc. apply Permutation_app_head.
  symmetry. apply Permutation_cons_append.
Qed.

End Encoded.

(* ================================================================== *)
(** * Properties of [sanitize_column_names] and [undummy] *)
(* ================================================================== *)


(** C2, as amended.  When no label of a frame that has at least one row
    starts with the prefix, [undummy] raises the [ValueError] of [idxmax] on
    an empty selection (there is no dedicated error class), and the frame is
    left as it was. *)
Theorem undummy_no_match_raises_value_error
        (h : store) (df : ref) (prefix : string) :
  dummy_cols (h df) prefix = [] ->
  0 < Pd.nrows (h df) ->
  undummy df prefix h = (Raise ValueError, h).
Proof.
  intros Hnone Hrows. pose proof (undummy_run h df prefix) as H.
  now rewrite undummy_frame_no_match in H.
Qed.

Lemma undummy_no_match_raises_value_error_witness :
  let h : store := fun _ => [("y", Numeric [Some 1%Z])] in
  dummy_cols (h 0) "cat_" = []
  /\ 0 < Pd.nrows (h 0)
  /\ undummy 0 "cat_" h = (Raise ValueError, h).
Proof.
  split; [reflexivity|]. split; [simpl; lia|].
  apply (undummy_no_match_raises_value_error
           (fun _ => [("y", Numeric [Some 1%Z])]) 0 "cat_").
  - reflexivity.
  - simpl. lia.
Defined.

(** C2, as stated, fails: on a frame without a matching column the exception
    raised is neither a [SchemaError] nor a [ConfigurationError]. *)
Lemma undummy_no_match_not_schema_error :
  let h : store := fun _ => [("y", Numeric [Some 1%Z])] in
  dummy_cols (h 0) "cat_" = []
  /\ ~ (exists e h', undummy 0 "cat_" h = (Raise e, h')
                     /\ (exn_class e = "SchemaError"
                         \/ exn_class e = "ConfigurationError")).
Proof.
  split; [reflexivity|].
  intros (e & h' & Hrun & Hcls).
  assert (E : fst (undummy 0 "cat_" (fun _ => [("y", Numeric [Some 1%Z])]))
              = Raise ValueError) by reflexivity.
  rewrite Hrun in E. simpl in E. injection E as ->.
  destruct Hcls as [Hc|Hc]; discriminate Hc.
Qed.

(** C8, at the failing input.  The value written is the selected label with
    every occurrence of the prefix removed, not the label without its leading
    prefix: the level [x_a_y] of a column [a] is encoded into the column
    [a_x_a_y], from which the code, given the prefix [a_], reconstructs [x_y]
    where stripping the prefix leaves [x_a_y]. *)
Theorem undummy_removes_every_occurrence :
  get_dummies [("a", Object [Some "x_a_y"])] ["a"]
  = Ok [("a_x_a_y", Numeric [Some 1%Z])]
  /\ output_of (undummy 0 "a_" (fun _ => [("a_x_a_y", Numeric [Some 1%Z])]))
     = Ok [("a", Object [Some "x_y"])].
Proof. split; reflexivity. Qed.

(** C4, as amended.  On a well-formed frame with at least one column under
    the prefix, those columns numeric with values that [float64] holds
    exactly, and every row holding a value in one of them, [undummy] selects
    on every row a column: the first, in column order, among those holding
    the row's maximum (missing values are passed over); the labels selected
    are what it writes, the prefix removed. *)
Theorem undummy_selects_first_argmax
        (h : store) (df : ref) (prefix : string) :
  wf (h df) = true ->
  dummy_cols (h df) prefix <> [] ->
  indicators_numeric (h df) prefix = true ->
  values_exact (h df) prefix = true ->
  rows_have_value (h df) prefix = true ->
  exists idx,
    List.length idx = Pd.nrows (h df)
    /\ (forall i, i < Pd.nrows (h df) ->
                  exists c,
                    nth i idx None = Some c
                    /\ first_argmax (h df) (dummy_cols (h df) prefix) i
                                    (Some c))
    /\ output_of (undummy df prefix h)
       = Pd.drop (Pd.setitem (h df) (PyStr.rstrip "_" prefix)
                             (Object (Pd.str_replace idx prefix EmptyString)))
                 (dummy_cols (h df) prefix).
Proof.
  intros Hwf Hne Hnum _ Hval. exists (selected (h df) prefix).
  split; [|split].
  - unfold selected. now rewrite length_map, length_seq.
  - intros i Hi. rewrite selected_nth by trivial.
    destruct (argmax_has_label (h df) prefix i) as [c Hc].
    { now apply rows_have_value_at. }
    exists c. split; trivial. rewrite <- Hc. apply argmax_first.
  - rewrite output_of_undummy. now apply undummy_frame_selected.
Qed.

Lemma undummy_selects_first_argmax_witness :
  let frame := [("y", Object [Some "u"; Some "v"]);
                ("cat_A", Numeric [Some 1%Z; None]);
                ("cat_B", Numeric [Some 1%Z; Some 1%Z])] in
  let h : store := fun _ => frame in
  wf (h 0) = true
  /\ dummy_cols (h 0) "cat_" <> []
  /\ indicators_numeric (h 0) "cat_" = true
  /\ values_exact (h 0) "cat_" = true
  /\ rows_have_value (h 0) "cat_" = true
  /\ exists idx,
      List.length idx = Pd.nrows (h 0)
      /\ (forall i, i < Pd.nrows (h 0) ->
                    exists c,
                      nth i idx None = Some c
                      /\ first_argmax (h 0) (dummy_cols (h 0) "cat_") i
                                      (Some c))
      /\ output_of (undummy 0 "cat_" h)
         = Pd.drop (Pd.setitem (h 0) (PyStr.rstrip "_" "cat_")
                               (Object (Pd.str_replace idx "cat_" EmptyString)))
                   (dummy_cols (h 0) "cat_").
Proof.
  split; [reflexivity|]. split; [discriminate|]. split; [reflexivity|].
  split; [reflexivity|]. split; [reflexivity|].
  apply (undummy_selects_first_argmax
           (fun _ => [("y", Object [Some "u"; Some "v"]);
                      ("cat_A", Numeric [Some 1%Z; None]);
                      ("cat_B", Numeric [Some 1%Z; Some 1%Z])]) 0 "cat_").
  - reflexivity.
  - discriminate.
  - reflexivity.
  - reflexivity.
  - reflexivity.
Defined.

(** C4, as stated, fails: the columns under the prefix need not be
    comparable.  With a column of numbers and a column of strings under the
    prefix, [undummy] raises [TypeError] and selects no column. *)
Lemma undummy_mixed_columns_select_nothing :
  let frame := [("cat_A", Numeric [Some 1%Z]); ("cat_B", Object [Some "yes"])] in
  wf frame = true
  /\ dummy_cols frame "cat_" = ["cat_A"; "cat_B"]
  /\ output_of (undummy 0 "cat_" (fun _ => frame)) = Raise TypeError.
Proof. repeat split. Qed.

(** C10, as amended.  On a well-formed frame without a column labelled as
    the prefix without its trailing underscores, whenever [undummy] returns:
    the columns whose label does not start with the prefix stay, with their
    values and in their order, one column labelled as the prefix without its
    trailing underscores is added after them, it has the rows of the frame,
    and the object given is the object returned and the only one that
    changed.  And [undummy] does return when at least one column is under
    the prefix and those columns are all numeric with a value on every row,
    or all hold strings and no missing value. *)
Theorem undummy_frame_property (h : store) (df : ref) (prefix : string) :
  wf (h df) = true ->
  ~ In (PyStr.rstrip "_" prefix) (Pd.columns (h df)) ->
  (forall r h',
      undummy df prefix h = (Ok r, h') ->
      r = df
      /\ (exists values,
            h' df = others (h df) prefix
                    ++ [(PyStr.rstrip "_" prefix, Object values)]
            /\ List.length values = Pd.nrows (h df))
      /\ forall r', r' <> df -> h' r' = h r')
  /\ (dummy_cols (h df) prefix <> [] ->
      (indicators_numeric (h df) prefix = true
       /\ rows_have_value (h df) prefix = true)
      \/ indicators_strings (h df) prefix = true ->
      exists h', undummy df prefix h = (Ok df, h')).
Proof.
  intros _ Hfresh.
  pose proof (undummy_run h df prefix) as Hrun. split.
  - intros r h' Hcall.
    destruct (undummy_frame (h df) prefix) as [out|e] eqn:Eout.
    + destruct Hrun as (h0 & Hcall0 & Hout & Hrest).
      rewrite Hcall0 in Hcall. injection Hcall as <- <-.
      split; trivial. split; trivial.
      destruct (undummy_frame_ok_fresh _ _ _ Hfresh Eout)
        as (values & Hlen & ->).
      exists values. now split.
    + rewrite Hrun in Hcall. discriminate.
  - intros Hne Hkind.
    destruct (undummy_frame_succeeds (h df) prefix Hne) as [out Eout].
    { destruct Hkind as [[Hnum _]|Hstr]; auto. }
    rewrite Eout in Hrun. destruct Hrun as (h' & Hcall & _). eauto.
Qed.

Lemma undummy_frame_property_witness :
  let frame := [("ds", Object [Some "mon"; Some "tue"]);
                ("cat_A", Numeric [Some 1%Z; Some 0%Z]);
                ("yhat", Numeric [Some 12%Z; Some 15%Z]);
                ("cat_B", Numeric [Some 0%Z; Some 1%Z])] in
  let h : store := fun _ => frame in
  exists h' values,
    undummy 0 "cat_" h = (Ok 0, h')
    /\ h' 0 = others (h 0) "cat_" ++ [(PyStr.rstrip "_" "cat_", Object values)]
    /\ List.length values = Pd.nrows (h 0)
    /\ forall r, r <> 0 -> h' r = h r.
Proof.
  intros frame h.
  assert (Hwf : wf (h 0) = true) by reflexivity.
  assert (Hfresh : ~ In (PyStr.rstrip "_" "cat_") (Pd.columns (h 0))).
  { simpl. intros [H|[H|[H|[H|[]]]]]; discriminate H. }
  destruct (undummy_frame_property h 0 "cat_" Hwf Hfresh) as [Hframe Hret].
  destruct Hret as [h' Hcall].
  { discriminate. }
  { left. split; reflexivity. }
  destruct (Hframe 0 h' Hcall) as (_ & (values & Hout & Hlen) & Hrest).
  exists h', values. repeat split; trivial.
Defined.

(** C10, as stated, fails: a column labelled as the prefix without its
    trailing underscore does not start with the prefix, yet its values are
    overwritten, and the output has no column more than the columns kept. *)
Lemma undummy_overwrites_existing_column :
  let frame := [("cat", Object [Some "z"]); ("cat_A", Numeric [Some 1%Z])] in
  wf frame = true
  /\ dummy_cols frame "cat_" <> []
  /\ indicators_numeric frame "cat_" = true
  /\ In ("cat", Object [Some "z"]) frame
  /\ PyStr.startswith "cat" "cat_" = false
  /\ exists out,
      output_of (undummy 0 "cat_" (fun _ => frame)) = Ok out
      /\ ~ In ("cat", Object [Some "z"]) out
      /\ List.length out = List.length (others frame "cat_").
Proof.
  split; [reflexivity|]. split; [discriminate|]. split; [reflexivity|].
  split; [now left|]. split; [reflexivity|].
  exists [("cat", Object [Some "A"])]. split; [reflexivity|].
  split; [|reflexivity].
  intros [H|[]]. discriminate H.
Qed.

(* ================================================================== *)
(** * Properties of the encoding and of the round trip *)
(* ================================================================== *)

(** C6.  Encoding a column of labels, [ks] being its distinct observed
    levels: the encoded frame is the frame without that column, followed by as
    many new columns as there are levels; every cell of a new column is 0 or
    1 and the new columns have the rows of the frame; exactly one column has
    left, the encoded one. *)
Theorem get_dummies_cardinality
        (data : DataFrame) (C : string) (l : list (option string))
        (ks : list string) :
  wf data = true ->
  Pd.lookup C data = Some (Object l) ->
  NoDup ks ->
  (forall v, In v ks <-> In (Some v) l) ->
  exists new,
    get_dummies data [C] = Ok (kept data [C] ++ new)
    /\ List.length new = List.length ks
    /\ (forall col, In col new ->
          exists vals, snd col = Numeric vals
                       /\ List.length vals = Pd.nrows data
                       /\ forall x, In x vals -> x = Some 0%Z \/ x = Some 1%Z)
    /\ S (List.length (kept data [C])) = List.length data
    /\ ~ In C (Pd.columns (kept data [C]))
    /\ forall col, In col data -> fst col <> C -> In col (kept data [C]).
Proof.
  intros Hwf Hcol Hnd Hks.
  exists (dummies string_dec String.leb (fun v => v) C "_" l).
  split; [exact (encoded_shape data C l Hcol)|].
  split; [|split; [|split; [|split]]].
  - rewrite length_dummies. now apply length_levels.
  - intros col Hin. rewrite (nrows_data data C l Hwf Hcol).
    exact (dummies_cells _ _ _ _ _ _ _ col Hin).
  - destruct (kept_split data C (Object l) (wf_NoDup _ Hwf) (lookup_In _ _ _ Hcol))
      as (pre & post & E & ->).
    rewrite E, !length_app. simpl. lia.
  - intros Hin. apply columns_kept in Hin. tauto.
  - intros col Hin Hne. unfold kept. apply filter_In. split; trivial.
    simpl. rewrite orb_false_r. now destruct (String.eqb_spec (fst col) C).
Qed.

Lemma get_dummies_cardinality_witness :
  let data := [("cat", Object [Some "B"; Some "A"; Some "B"]);
               ("y", Numeric [Some 3%Z; Some 4%Z; Some 5%Z])] in
  exists new,
    get_dummies data ["cat"] = Ok (kept data ["cat"] ++ new)
    /\ List.length new = List.length ["A"; "B"]
    /\ (forall col, In col new ->
          exists vals, snd col = Numeric vals
                       /\ List.length vals = Pd.nrows data
                       /\ forall x, In x vals -> x = Some 0%Z \/ x = Some 1%Z)
    /\ S (List.length (kept data ["cat"])) = List.length data
    /\ ~ In "cat" (Pd.columns (kept data ["cat"]))
    /\ forall col, In col data -> fst col <> "cat" -> In col (kept data ["cat"]).
Proof.
  apply (get_dummies_cardinality
           [("cat", Object [Some "B"; Some "A"; Some "B"]);
            ("y", Numeric [Some 3%Z; Some 4%Z; Some 5%Z])]
           "cat" [Some "B"; Some "A"; Some "B"] ["A"; "B"]).
  - reflexivity.
  - reflexivity.
  - constructor; [intros [H|[]]; discriminate H|].
    constructor; [intros []|constructor].
  - intros v. simpl. split.
    + intros [<-|[<-|[]]]; auto.
    + intros [H|[H|[H|[]]]]; injection H as <-; auto.
Defined.

(** C5, as amended.  Encoding a column of labels that has a label on every
    row, in a well-formed frame where no other column bears the prefix (the
    label of the encoded column and an underscore): the columns of the
    encoded frame that bear the prefix have distinct labels and, on every
    row, exactly one of them holds 1 and every other one holds 0. *)
Theorem get_dummies_exclusive
        (data : DataFrame) (C : string) (l : list (option string)) :
  wf data = true ->
  Pd.lookup C data = Some (Object l) ->
  (forall x, In x l -> x <> None) ->
  (forall c, In c (Pd.columns data) -> c <> C ->
             PyStr.startswith c (C ++ "_") = false) ->
  exists enc,
    get_dummies data [C] = Ok enc
    /\ NoDup (dummy_cols enc (C ++ "_"))
    /\ forall i, i < Pd.nrows data ->
         exists c,
           In c (dummy_cols enc (C ++ "_"))
           /\ value_at enc c i = Some 1%Z
           /\ forall c', In c' (dummy_cols enc (C ++ "_")) -> c' <> c ->
                         value_at enc c' i = Some 0%Z.
Proof.
  intros Hwf Hcol Hlabels Hfree.
  exists (kept data [C] ++ dummies string_dec String.leb (fun v => v) C "_" l).
  split; [exact (encoded_shape data C l Hcol)|].
  rewrite (dummy_cols_enc data C l Hfree). split.
  { apply NoDup_columns_block. }
  intros i Hi. rewrite (nrows_data data C l Hwf Hcol) in Hi.
  destruct (row_label l Hlabels i Hi) as (y & Hy & Hin).
  exists (C ++ "_" ++ y)%string. rewrite columns_block. split; [|split].
  - apply in_map_iff. now exists y.
  - rewrite (value_at_enc data C l Hwf Hcol Hfree y i y Hin Hy).
    now destruct (string_dec y y).
  - intros c' Hc' Hne. apply in_map_iff in Hc' as (v & <- & Hv).
    rewrite (value_at_enc data C l Hwf Hcol Hfree v i y Hv Hy).
    destruct (string_dec y v) as [->|_]; [now elim Hne | reflexivity].
Qed.

Lemma get_dummies_exclusive_witness :
  let data := [("cat", Object [Some "B"; Some "A"; Some "B"]);
               ("y", Numeric [Some 3%Z; Some 4%Z; Some 5%Z])] in
  exists enc,
    get_dummies data ["cat"] = Ok enc
    /\ NoDup (dummy_cols enc "cat_")
    /\ forall i, i < Pd.nrows data ->
         exists c,
           In c (dummy_cols enc "cat_")
           /\ value_at enc c i = Some 1%Z
           /\ forall c', In c' (dummy_cols enc "cat_") -> c' <> c ->
                         value_at enc c' i = Some 0%Z.
Proof.
  apply (get_dummies_exclusive
           [("cat", Object [Some "B"; Some "A"; Some "B"]);
            ("y", Numeric [Some 3%Z; Some 4%Z; Some 5%Z])]
           "cat" [Some "B"; Some "A"; Some "B"]).
  - reflexivity.
  - reflexivity.
  - simpl. intros x [<-|[<-|[<-|[]]]]; discriminate.
  - simpl. intros c [<-|[<-|[]]] Hne; [now elim Hne | reflexivity].
Defined.

(** C5, as stated, fails: the encoding leaves the other columns as they are,
    and one of them may bear the prefix.  With a column [cat_x] holding 1
    beside the encoded column [cat], two columns under the prefix [cat_] hold
    1 on the first row. *)
Lemma prefixed_column_breaks_exclusivity :
  let data := [("cat", Object [Some "A"; Some "B"]);
               ("cat_x", Numeric [Some 1%Z; Some 1%Z])] in
  wf data = true
  /\ (forall x, In x [Some "A"; Some "B"] -> x <> None)
  /\ exists enc,
      get_dummies data ["cat"] = Ok enc
      /\ dummy_cols enc "cat_" = ["cat_x"; "cat_A"; "cat_B"]
      /\ value_at enc "cat_x" 0 = Some 1%Z
      /\ value_at enc "cat_A" 0 = Some 1%Z.
Proof.
  split; [reflexivity|]. split.
  { simpl. intros x [<-|[<-|[]]]; discriminate. }
  eexists. split; [reflexivity|]. repeat split.
Qed.

(** C3, as amended.  The encoding does not sanitize the levels and checks
    no collision: on a column of labels it raises nothing, labels the
    indicator column of a level [v] with the label of the column, the
    separator and [v] itself, and labels distinct levels differently. *)
Theorem get_dummies_labels_injective
        (data : DataFrame) (C : string) (l : list (option string)) :
  Pd.lookup C data = Some (Object l) ->
  exists ind,
    get_dummies data [C] = Ok (kept data [C] ++ ind)
    /\ (forall v, In (Some v) l <-> In (C ++ "_" ++ v)%string (Pd.columns ind))
    /\ (forall v w, (C ++ "_" ++ v)%string = (C ++ "_" ++ w)%string -> v = w)
    /\ NoDup (Pd.columns ind).
Proof.
  intros Hcol.
  exists (dummies string_dec String.leb (fun v => v) C "_" l).
  split; [exact (encoded_shape data C l Hcol)|].
  split; [|split].
  - intros v. rewrite columns_block, <- (In_levels _ string_dec String.leb).
    split.
    + intros H. apply in_map_iff. now exists v.
    + intros H. apply in_map_iff in H as (w & E & Hw).
      apply label_inj in E. now subst.
  - exact (label_inj C).
  - apply NoDup_columns_block.
Qed.

Lemma get_dummies_labels_injective_witness :
  let data := [("cat", Object [Some "a b"; Some "a-b"])] in
  exists ind,
    get_dummies data ["cat"] = Ok (kept data ["cat"] ++ ind)
    /\ (forall v, In (Some v) [Some "a b"; Some "a-b"]
                  <-> In ("cat" ++ "_" ++ v)%string (Pd.columns ind))
    /\ (forall v w, ("cat" ++ "_" ++ v)%string = ("cat" ++ "_" ++ w)%string
                    -> v = w)
    /\ NoDup (Pd.columns ind).
Proof.
  apply (get_dummies_labels_injective
           [("cat", Object [Some "a b"; Some "a-b"])] "cat"
           [Some "a b"; Some "a-b"]).
  reflexivity.
Defined.

(** C3, as stated, fails: two distinct levels whose indicator labels
    sanitize to one label are encoded without any exception, each into a
    column labelled with the level as it is. *)
Lemma get_dummies_accepts_colliding_levels :
  let data := [("cat", Object [Some "a b"; Some "a-b"])] in
  "a b" <> "a-b"
  /\ sanitize_label "a b" = sanitize_label "a-b"
  /\ sanitize_label "cat_a b" = sanitize_label "cat_a-b"
  /\ (forall e, get_dummies data ["cat"] <> Raise e)
  /\ exists enc, get_dummies data ["cat"] = Ok enc
                 /\ Pd.columns enc = ["cat_a b"; "cat_a-b"].
Proof.
  split; [discriminate|]. split; [reflexivity|]. split; [reflexivity|].
  split; [intros e; discriminate|].
  eexists. split; reflexivity.
Qed.

(** C1, as amended.  Let [data] be a well-formed frame and [C] a column of
    labels with at least one row and a label on every row, such that no other
    column of [data] starts with [C] followed by the separator, [C] has no
    trailing underscore, and removing every occurrence of the prefix from the
    indicator label of a level leaves the level.  Then encoding [C] and
    decoding with [C] followed by the separator gives the columns of [data]
    in another order, the reconstructed column equal to the original row for
    row. *)
Theorem round_trip
        (data : DataFrame) (C : string) (l : list (option string)) :
  wf data = true ->
  Pd.lookup C data = Some (Object l) ->
  l <> [] ->
  (forall x, In x l -> x <> None) ->
  (forall c, In c (Pd.columns data) -> c <> C ->
             PyStr.startswith c (C ++ "_") = false) ->
  (forall v, In (Some v) l ->
             PyStr.replace (C ++ "_" ++ v) (C ++ "_") EmptyString = v) ->
  PyStr.rstrip "_" C = C ->
  exists enc,
    get_dummies data [C] = Ok enc
    /\ forall (h : store) (df : ref),
        h df = enc ->
        exists h',
          undummy df (C ++ "_") h = (Ok df, h')
          /\ Permutation (h' df) data
          /\ Pd.lookup C (h' df) = Some (Object l).
Proof.
  intros Hwf Hcol Hrows Hlabels Hfree Hstrip Hname.
  eexists. split; [exact (encoded_shape data C l Hcol)|].
  intros h df Henc.
  pose proof (undummy_run h df (C ++ "_")) as Hrun.
  rewrite Henc in Hrun.
  rewrite (undummy_frame_enc data C l Hwf Hcol Hlabels Hfree Hstrip Hrows Hname)
    in Hrun.
  destruct Hrun as (h' & Hcall & Hout & _).
  exists h'. split; [exact Hcall|].
  pose proof (kept_permutation data C l Hwf Hcol) as Hperm.
  rewrite Hout. split; [exact Hperm|].
  apply In_lookup.
  - apply (Permutation_NoDup (l := Pd.columns data)).
    + symmetry. unfold Pd.columns. now apply Permutation_map.
    + now apply wf_NoDup.
  - apply in_or_app. right. now left.
Qed.

Lemma round_trip_witness :
  let data := [("cat", Object [Some "A"; Some "B"; Some "A"]);
               ("y", Numeric [Some 3%Z; Some 4%Z; Some 5%Z])] in
  exists enc,
    get_dummies data ["cat"] = Ok enc
    /\ forall (h : store) (df : ref),
        h df = enc ->
        exists h',
          undummy df ("cat" ++ "_") h = (Ok df, h')
          /\ Permutation (h' df) data
          /\ Pd.lookup "cat" (h' df)
             = Some (Object [Some "A"; Some "B"; Some "A"]).
Proof.
  apply (round_trip
           [("cat", Object [Some "A"; Some "B"; Some "A"]);
            ("y", Numeric [Some 3%Z; Some 4%Z; Some 5%Z])]
           "cat" [Some "A"; Some "B"; Some "A"]).
  - reflexivity.
  - reflexivity.
  - discriminate.
  - simpl. intros x [<-|[<-|[<-|[]]]]; discriminate.
  - simpl. intros c [<-|[<-|[]]] Hne; [congruence | reflexivity].
  - simpl. intros v [H|[H|[H|[]]]]; injection H as <-; reflexivity.
  - reflexivity.
Defined.

(** C1, as stated, fails: a column of the input that already bears the
    prefix (here an indicator column [cat_x] holding 1 on every row) is taken
    for an indicator column by the decoding, so the round trip loses it and
    reconstructs other labels. *)
Lemma prefixed_column_breaks_round_trip :
  let data := [("cat", Object [Some "A"; Some "B"]);
               ("cat_x", Numeric [Some 1%Z; Some 1%Z])] in
  wf data = true
  /\ sanitize_label "cat_A" <> sanitize_label "cat_B"
  /\ exists enc out,
      get_dummies data ["cat"] = Ok enc
      /\ output_of (undummy 0 "cat_" (fun _ => enc)) = Ok out
      /\ out = [("cat", Object [Some "x"; Some "x"])]
      /\ ~ Permutation out data
      /\ Pd.lookup "cat" out <> Pd.lookup "cat" data.
Proof.
  split; [reflexivity|]. split; [discriminate|].
  eexists. exists [("cat", Object [Some "x"; Some "x"])].
  split; [reflexivity|]. split; [reflexivity|]. split; [reflexivity|]. split.
  - intros H. apply Permutation_length in H. discriminate H.
  - discriminate.
Qed.

(** ** The hypotheses of the round trip are needed *)

(** A column without rows has no level: nothing is encoded, and no column
    is left for the decoding to select. *)
Example decode_without_rows :
  get_dummies [("cat", Object [])] ["cat"] = Ok []
  /\ dummy_cols [] "cat_" = [].
Proof. split; reflexivity. Qed.

(** A row without label has 0 in every indicator column and is decoded to
    the first level. *)
Example decode_missing_label :
  get_dummies [("cat", Object [Some "B"; None; Some "A"])] ["cat"]
  = Ok [("cat_A", Numeric [Some 0%Z; Some 0%Z; Some 1%Z]);
        ("cat_B", Numeric [Some 1%Z; Some 0%Z; Some 0%Z])]
  /\ output_of
       (undummy 0 "cat_"
          (fun _ => [("cat_A", Numeric [Some 0%Z; Some 0%Z; Some 1%Z]);
                     ("cat_B", Numeric [Some 1%Z; Some 0%Z; Some 0%Z])]))
     = Ok [("cat", Object [Some "B"; Some "A"; Some "A"])].
Proof. split; reflexivity. Qed.

(** The trailing underscores of the label of the encoded column are lost. *)
Example decode_trailing_underscore :
  get_dummies [("cat_", Object [Some "A"])] ["cat_"]
  = Ok [("cat__A", Numeric [Some 1%Z])]
  /\ output_of (undummy 0 "cat__" (fun _ => [("cat__A", Numeric [Some 1%Z])]))
     = Ok [("cat", Object [Some "A"])].
Proof. split; reflexivity. Qed.

(** The scenario of the specification: rows A, B, A. *)
Example scenario_rows_A_B_A :
  get_dummies [("cat", Object [Some "A"; Some "B"; Some "A"])] ["cat"]
  = Ok [("cat_A", Numeric [Some 1%Z; Some 0%Z; Some 1%Z]);
        ("cat_B", Numeric [Some 0%Z; Some 1%Z; Some 0%Z])]
  /\ output_of
       (undummy 0 "cat_"
          (fun _ => [("cat_A", Numeric [Some 1%Z; Some 0%Z; Some 1%Z]);
                     ("cat_B", Numeric [Some 0%Z; Some 1%Z; Some 0%Z])]))
     = Ok [("cat", Object [Some "A"; Some "B"; Some "A"])].
Proof. split; reflexivity. Qed.

(** A label with a space is encoded as it is and decoded back; sanitizing
    the labels of the encoded frame first loses the space. *)
Example scenario_new_york :
  get_dummies [("cat", Object [Some "New York"])] ["cat"]
  = Ok [("cat_New York", Numeric [Some 1%Z])]
  /\ output_of (undummy 0 "cat_" (fun _ => [("cat_New York", Numeric [Some 1%Z])]))
     = Ok [("cat", Object [Some "New York"])]
  /\ output_of (sanitize_column_names 0
                  (fun _ => [("cat_New York", Numeric [Some 1%Z])]))
     = Ok [("cat_New_York", Numeric [Some 1%Z])].
Proof. repeat split; reflexivity. Qed.

(* ================================================================== *)
(** * More on [sanitize_column_names] *)
(* ================================================================== *)

Section SanitizeMore.
Import PyStr PyStrFacts.










Lemma length_rstrip s : String.length (rstrip "_" s) <= String.length s.
Proof.
  induction s as [|c s IH]; trivial.
  rewrite rstrip_eq. destruct (rstrip "_" s) as [|d r].
  - destruct (is_us c); simpl; lia.
  - simpl in *. lia.
Qed.





End SanitizeMore.


Lemma map_collision_not_NoDup {A B} (f : A -> B) l a b :
  In a l -> In b l -> a <> b -> f a = f b -> ~ NoDup (map f l).
Proof.
  intros Ha Hb Hne Hf Hnd. induction l as [|x l IH]; [contradiction|].
  simpl in Hnd. inversion_clear Hnd as [|? ? Hx Hl].
  destruct Ha as [->|Ha], Hb as [->|Hb].
  - congruence.
  - apply Hx. rewrite Hf. now apply in_map.
  - apply Hx. rewrite <- Hf. now apply in_map.
  - auto.
Qed.






(** X5.  Distinct labels may be sanitized to one label: the call then
    leaves the frame with a repeated label, and raises nothing. *)
Theorem sanitize_column_names_may_repeat_labels
        (h : store) (df : ref) (a b : string) :
  In a (Pd.columns (h df)) -> In b (Pd.columns (h df)) -> a <> b ->
  sanitize_label a = sanitize_label b ->
  exists h',
    sanitize_column_names df h = (Ok df, h')
    /\ ~ NoDup (Pd.columns (h' df)).
Proof.
  intros Ha Hb Hne Hsame.
  destruct (sanitize_column_names_run h df) as (h' & E & F & _).
  exists h'. split; [exact E|]. rewrite F, columns_rename.
  now apply map_collision_not_NoDup with a b.
Qed.

Lemma sanitize_column_names_may_repeat_labels_witness :
  let h : store := fun _ => [("unit price", Numeric [Some 3%Z]);
                             ("unit-price", Numeric [Some 4%Z])] in
  exists h',
    sanitize_column_names 0 h = (Ok 0, h')
    /\ ~ NoDup (Pd.columns (h' 0)).
Proof.
  apply (sanitize_column_names_may_repeat_labels
           (fun _ => [("unit price", Numeric [Some 3%Z]);
                      ("unit-price", Numeric [Some 4%Z])])
           0 "unit price" "unit-price").
  - simpl. auto.
  - simpl. auto.
  - discriminate.
  - reflexivity.
Defined.

(* ================================================================== *)
(** * More on [undummy] *)
(* ================================================================== *)

Lemma numeric_block_object (sel : DataFrame) c l :
  In (c, Object l) sel -> Pd.numeric_block sel = None.
Proof.
  induction sel as [|[c' [l'|l']] sel IH]; simpl; [contradiction| |].
  - trivial.
  - intros [[=]|H]. now rewrite IH.
Qed.

Lemma dummy_cols_filter (df : DataFrame) prefix :
  NoDup (Pd.columns df) ->
  Pd.getitem df (dummy_cols df prefix)
  = Ok (filter (fun col => PyStr.startswith (fst col) prefix) df).
Proof.
  intros Hnd. unfold dummy_cols.
  exact (getitem_filter df (fun c => PyStr.startswith c prefix) Hnd).
Qed.

Lemma string_block_numeric (sel : DataFrame) c l :
  In (c, Numeric l) sel -> Pd.string_block sel = None.
Proof.
  induction sel as [|[c' [l'|l']] sel IH]; simpl; [contradiction| |].
  - intros [[=]|H]. rewrite IH by trivial. now destruct (Pd.complete l').
  - trivial.
Qed.

Lemma undummy_frame_mixed df prefix c1 l1 c2 l2 :
  NoDup (Pd.columns df) -> 0 < Pd.nrows df ->
  In (c1, Object l1) df -> PyStr.startswith c1 prefix = true ->
  In (c2, Numeric l2) df -> PyStr.startswith c2 prefix = true ->
  undummy_frame df prefix = Raise TypeError.
Proof.
  intros Hnd Hrows Hin1 Hc1 Hin2 Hc2. unfold undummy_frame.
  rewrite dummy_cols_filter by trivial.
  assert (Hsel1 : In (c1, Object l1)
                     (filter (fun col => PyStr.startswith (fst col) prefix) df))
    by (apply filter_In; now split).
  assert (Hsel2 : In (c2, Numeric l2)
                     (filter (fun col => PyStr.startswith (fst col) prefix) df))
    by (apply filter_In; now split).
  unfold Pd.idxmax_axis1. destruct (Pd.nrows df); [lia|].
  rewrite (numeric_block_object _ c1 l1 Hsel1).
  rewrite (string_block_numeric _ c2 l2 Hsel2).
  destruct (filter _ df); [contradiction | reflexivity].
Qed.

(** X6.  Whenever [undummy] raises on a well-formed frame, the exception is
    a [ValueError], a [TypeError] or an [AttributeError] (never the
    [KeyError] of a missing label), and the store is as it was before the
    call: nothing is written before the failure. *)
Theorem undummy_raise_leaves_store
        (h h' : store) (df : ref) (prefix : string) (e : exn) :
  wf (h df) = true ->
  undummy df prefix h = (Raise e, h') ->
  h' = h /\ (e = ValueError \/ e = TypeError \/ e = AttributeError).
Proof.
  intros _ Hcall. pose proof (undummy_run h df prefix) as Hrun.
  destruct (undummy_frame (h df) prefix) as [out|e0] eqn:E.
  - destruct Hrun as (h1 & Hok & _). congruence.
  - rewrite Hrun in Hcall. injection Hcall as <- <-.
    split; trivial. now apply undummy_frame_raises with (h df) prefix.
Qed.

Lemma undummy_raise_leaves_store_witness :
  let h : store := fun _ => [("cat_A", Numeric [Some 1%Z]);
                             ("cat_note", Object [Some "n/a"])] in
  undummy 0 "cat_" h = (Raise TypeError, h)
  /\ h = h
  /\ (TypeError = ValueError \/ TypeError = TypeError
      \/ TypeError = AttributeError).
Proof.
  split; [reflexivity|].
  apply (undummy_raise_leaves_store
           (fun _ => [("cat_A", Numeric [Some 1%Z]);
                      ("cat_note", Object [Some "n/a"])])
           (fun _ => [("cat_A", Numeric [Some 1%Z]);
                      ("cat_note", Object [Some "n/a"])]) 0 "cat_" TypeError).
  - reflexivity.
  - reflexivity.
Defined.

(** X7.  When, among the columns whose label starts with the prefix, one
    holds strings and no missing value and another holds a number on some
    row, that row cannot be compared: [undummy] raises [TypeError] and leaves
    the frame as it was. *)
Theorem undummy_mixed_columns_type_error
        (h : store) (df : ref) (prefix c1 c2 : string)
        (l1 : list (option string)) (l2 : list (option Z)) (i : nat) (z : Z) :
  wf (h df) = true ->
  In (c1, Object l1) (h df) ->
  PyStr.startswith c1 prefix = true ->
  is_strings (Object l1) = true ->
  In (c2, Numeric l2) (h df) ->
  PyStr.startswith c2 prefix = true ->
  nth_error l2 i = Some (Some z) ->
  undummy df prefix h = (Raise TypeError, h).
Proof.
  intros Hwf Hin1 Hc1 _ Hin2 Hc2 Hi.
  pose proof (undummy_run h df prefix) as Hrun.
  assert (Hrows : 0 < Pd.nrows (h df)).
  { rewrite <- (wf_len _ _ _ Hwf Hin2). simpl.
    assert (i < List.length l2); [|lia].
    apply nth_error_Some. congruence. }
  now rewrite (undummy_frame_mixed (h df) prefix c1 l1 c2 l2
                 (wf_NoDup _ Hwf) Hrows Hin1 Hc1 Hin2 Hc2) in Hrun.
Qed.

Lemma undummy_mixed_columns_type_error_witness :
  let h : store := fun _ => [("cat_A", Numeric [Some 1%Z]);
                             ("cat_note", Object [Some "n/a"])] in
  undummy 0 "cat_" h = (Raise TypeError, h).
Proof.
  apply (undummy_mixed_columns_type_error
           (fun _ => [("cat_A", Numeric [Some 1%Z]);
                      ("cat_note", Object [Some "n/a"])])
           0 "cat_" "cat_note" "cat_A" [Some "n/a"] [Some 1%Z] 0 1%Z).
  - reflexivity.
  - simpl. auto.
  - reflexivity.
  - reflexivity.
  - simpl. auto.
  - reflexivity.
  - reflexivity.
Defined.

(** ** The reconstructed column, row by row *)

Lemma lookup_app_fresh (df : DataFrame) c s :
  ~ In c (Pd.columns df) -> Pd.lookup c (df ++ [(c, s)]) = Some s.
Proof.
  induction df as [|[c' s'] df IH]; simpl; intros H.
  - now rewrite String.eqb_refl.
  - destruct (String.eqb_spec c' c) as [->|Hne]; [tauto|]. apply IH. tauto.
Qed.

Lemma columns_others_incl df prefix c :
  In c (Pd.columns (others df prefix)) -> In c (Pd.columns df).
Proof.
  unfold Pd.columns, others. intros H.
  apply in_map_iff in H as (col & <- & H). apply filter_In in H as [H _].
  now apply in_map.
Qed.

Lemma columns_others_startswith df prefix c :
  In c (Pd.columns (others df prefix)) -> PyStr.startswith c prefix = false.
Proof.
  unfold Pd.columns, others. intros H.
  apply in_map_iff in H as (col & <- & H). apply filter_In in H as [_ H].
  now apply negb_true_iff in H.
Qed.

(** The run of [undummy] when the label of the reconstructed column is
    new. *)
Lemma undummy_fresh_run h df prefix :
  wf (h df) = true ->
  dummy_cols (h df) prefix <> [] ->
  indicators_numeric (h df) prefix = true ->
  ~ In (PyStr.rstrip "_" prefix) (Pd.columns (h df)) ->
  exists h',
    undummy df prefix h = (Ok df, h')
    /\ h' df = others (h df) prefix
               ++ [(PyStr.rstrip "_" prefix,
                    Object (Pd.str_replace (selected (h df) prefix)
                                           prefix EmptyString))]
    /\ Pd.lookup (PyStr.rstrip "_" prefix) (h' df)
       = Some (Object (Pd.str_replace (selected (h df) prefix)
                                      prefix EmptyString))
    /\ forall r, r <> df -> h' r = h r.
Proof.
  intros Hwf Hne Hnum Hfresh.
  pose proof (undummy_run h df prefix) as Hrun.
  rewrite (undummy_frame_fresh _ _ Hwf Hne Hnum Hfresh) in Hrun.
  destruct Hrun as (h' & Hcall & Hout & Hrest).
  exists h'. repeat split; trivial.
  rewrite Hout. apply lookup_app_fresh.
  intros Hin. apply Hfresh. now apply columns_others_incl with prefix.
Qed.

(** Row [i] of the reconstructed column. *)
Lemma decoded_row df prefix i :
  i < Pd.nrows df ->
  nth_error (Pd.str_replace (selected df prefix) prefix EmptyString) i
  = Some (option_map
            (fun c => PyStr.replace c prefix EmptyString)
            (Pd.argmax_from None
               (map (fun c => (c, value_at df c i)) (dummy_cols df prefix)))).
Proof.
  intros Hi. unfold Pd.str_replace, selected.
  rewrite !nth_error_map.
  rewrite (nth_error_nth' (seq 0 (Pd.nrows df)) 0)
    by now rewrite length_seq.
  now rewrite seq_nth.
Qed.

(** The scan on a row where one column holds more than every other. *)
Lemma argmax_strict df cols i c v :
  In c cols -> value_at df c i = Some v ->
  (forall c' w, In c' cols -> c' <> c -> value_at df c' i = Some w ->
                (w < v)%Z) ->
  Pd.argmax_from None (map (fun c => (c, value_at df c i)) cols) = Some c.
Proof.
  intros Hc Hv Hmax. pose proof (argmax_first df cols i) as H.
  destruct (Pd.argmax_from None _) as [c'|]; simpl in H.
  - destruct H as (k & v' & Hk & Hv' & Hall).
    destruct (string_dec c' c) as [->|Hne]; trivial.
    apply In_nth_error in Hc as [j Hj].
    destruct (Hall j c v Hj Hv) as [Hle _].
    pose proof (Hmax c' v' (nth_error_In _ _ Hk) Hne Hv'). lia.
  - rewrite (H c Hc) in Hv. discriminate.
Qed.

(** The scan on a row where the first column holds a value that no column
    exceeds. *)
Lemma argmax_tie_first df c0 rest i v :
  value_at df c0 i = Some v ->
  (forall c' w, In c' (c0 :: rest) -> value_at df c' i = Some w ->
                (w <= v)%Z) ->
  Pd.argmax_from None (map (fun c => (c, value_at df c i)) (c0 :: rest))
  = Some c0.
Proof.
  intros Hv Hmax. pose proof (argmax_first df (c0 :: rest) i) as H.
  destruct (Pd.argmax_from None _) as [c'|]; simpl in H.
  - destruct H as (k & v' & Hk & Hv' & Hall).
    destruct (Hall 0 c0 v eq_refl Hv) as [_ Hlt].
    pose proof (Hmax c' v' (nth_error_In _ _ Hk) Hv') as Hle.
    destruct k as [|k]; [simpl in Hk; congruence|].
    specialize (Hlt (Nat.lt_0_succ k)). lia.
  - rewrite (H c0 (or_introl eq_refl)) in Hv. discriminate.
Qed.

Lemma NoDup_columns_filter (p : string * series -> bool) (df : DataFrame) :
  NoDup (Pd.columns df) -> NoDup (Pd.columns (filter p df)).
Proof.
  unfold Pd.columns. induction df as [|col df IH]; simpl; trivial.
  intros H. inversion_clear H as [|? ? Hc Hdf].
  destruct (p col); simpl; auto. constructor; auto.
  intros Hin. apply Hc. apply in_map_iff in Hin as (x & E & Hx).
  apply filter_In in Hx as [Hx _]. rewrite <- E. now apply in_map.
Qed.

Lemma length_decoded df prefix :
  List.length (Pd.str_replace (selected df prefix) prefix EmptyString)
  = Pd.nrows df.
Proof. unfold Pd.str_replace, selected. now rewrite !length_map, length_seq. Qed.

(** X9.  When the columns under the prefix are numeric with values that
    [float64] holds exactly and every row has a value in one of them:
    one-hot rows, and more generally rows where one column under the prefix
    holds more than every other such column, are decoded to the label of
    that column with the prefix removed. *)
Theorem undummy_decodes_strict_maximum
        (h : store) (df : ref) (prefix c : string) (i : nat) (v : Z) :
  wf (h df) = true ->
  indicators_numeric (h df) prefix = true ->
  values_exact (h df) prefix = true ->
  rows_have_value (h df) prefix = true ->
  ~ In (PyStr.rstrip "_" prefix) (Pd.columns (h df)) ->
  i < Pd.nrows (h df) ->
  In c (dummy_cols (h df) prefix) ->
  value_at (h df) c i = Some v ->
  (forall c' w, In c' (dummy_cols (h df) prefix) -> c' <> c ->
                value_at (h df) c' i = Some w -> (w < v)%Z) ->
  exists h' values,
    undummy df prefix h = (Ok df, h')
    /\ Pd.lookup (PyStr.rstrip "_" prefix) (h' df) = Some (Object values)
    /\ nth_error values i = Some (Some (PyStr.replace c prefix EmptyString)).
Proof.
  intros Hwf Hnum _ _ Hfresh Hi Hc Hv Hmax.
  assert (Hne : dummy_cols (h df) prefix <> []) by (intros E; now rewrite E in Hc).
  destruct (undummy_fresh_run h df prefix Hwf Hne Hnum Hfresh)
    as (h' & Hcall & _ & Hcol & _).
  exists h'. eexists. split; [exact Hcall|]. split; [exact Hcol|].
  rewrite decoded_row by trivial.
  now rewrite (argmax_strict (h df) _ i c v Hc Hv Hmax).
Qed.

Lemma undummy_decodes_strict_maximum_witness :
  let h : store := fun _ => [("ds", Object [Some "mon"; Some "tue"]);
                             ("cat_A", Numeric [Some 0%Z; Some 1%Z]);
                             ("cat_B", Numeric [Some 1%Z; Some 0%Z]);
                             ("cat_C", Numeric [Some 0%Z; None])] in
  exists h' values,
    undummy 0 "cat_" h = (Ok 0, h')
    /\ Pd.lookup (PyStr.rstrip "_" "cat_") (h' 0) = Some (Object values)
    /\ nth_error values 1 = Some (Some (PyStr.replace "cat_A" "cat_" EmptyString)).
Proof.
  apply (undummy_decodes_strict_maximum
           (fun _ => [("ds", Object [Some "mon"; Some "tue"]);
                      ("cat_A", Numeric [Some 0%Z; Some 1%Z]);
                      ("cat_B", Numeric [Some 1%Z; Some 0%Z]);
                      ("cat_C", Numeric [Some 0%Z; None])])
           0 "cat_" "cat_A" 1 1%Z).
  - reflexivity.
  - reflexivity.
  - reflexivity.
  - reflexivity.
  - simpl. intros [H|[H|[H|[H|[]]]]]; discriminate H.
  - simpl. lia.
  - simpl. auto.
  - reflexivity.
  - simpl. intros c' w [<-|[<-|[<-|[]]]] Hne Hw; vm_compute in Hw.
    + congruence.
    + injection Hw as <-. lia.
    + discriminate Hw.
Defined.

(** X10.  When the columns under the prefix are numeric and every row has
    a value in one of them: on a row where no column under the prefix holds
    more than the first one (as on a row of zeros, or of equal values), the
    row is decoded to the label of that first column, the prefix removed. *)
Theorem undummy_tie_decodes_first_column
        (h : store) (df : ref) (prefix c0 : string) (rest : list string)
        (i : nat) (v : Z) :
  wf (h df) = true ->
  indicators_numeric (h df) prefix = true ->
  rows_have_value (h df) prefix = true ->
  ~ In (PyStr.rstrip "_" prefix) (Pd.columns (h df)) ->
  i < Pd.nrows (h df) ->
  dummy_cols (h df) prefix = c0 :: rest ->
  value_at (h df) c0 i = Some v ->
  (forall c' w, In c' (c0 :: rest) -> value_at (h df) c' i = Some w ->
                (w <= v)%Z) ->
  exists h' values,
    undummy df prefix h = (Ok df, h')
    /\ Pd.lookup (PyStr.rstrip "_" prefix) (h' df) = Some (Object values)
    /\ nth_error values i = Some (Some (PyStr.replace c0 prefix EmptyString)).
Proof.
  intros Hwf Hnum _ Hfresh Hi Hcols Hv Hmax.
  assert (Hne : dummy_cols (h df) prefix <> []) by (rewrite Hcols; discriminate).
  destruct (undummy_fresh_run h df prefix Hwf Hne Hnum Hfresh)
    as (h' & Hcall & _ & Hcol & _).
  exists h'. eexists. split; [exact Hcall|]. split; [exact Hcol|].
  rewrite decoded_row by trivial. rewrite Hcols.
  now rewrite (argmax_tie_first (h df) c0 rest i v Hv Hmax).
Qed.

Lemma undummy_tie_decodes_first_column_witness :
  let h : store := fun _ => [("cat_B", Numeric [Some 1%Z; Some 0%Z]);
                             ("cat_A", Numeric [Some 0%Z; Some 0%Z])] in
  exists h' values,
    undummy 0 "cat_" h = (Ok 0, h')
    /\ Pd.lookup (PyStr.rstrip "_" "cat_") (h' 0) = Some (Object values)
    /\ nth_error values 1 = Some (Some (PyStr.replace "cat_B" "cat_" EmptyString)).
Proof.
  apply (undummy_tie_decodes_first_column
           (fun _ => [("cat_B", Numeric [Some 1%Z; Some 0%Z]);
                      ("cat_A", Numeric [Some 0%Z; Some 0%Z])])
           0 "cat_" "cat_B" ["cat_A"] 1 0%Z).
  - reflexivity.
  - reflexivity.
  - reflexivity.
  - simpl. intros [H|[H|[]]]; discriminate H.
  - simpl. lia.
  - reflexivity.
  - reflexivity.
  - simpl. intros c' w [<-|[<-|[]]] Hw; vm_compute in Hw;
      injection Hw as <-; lia.
Defined.

Lemma wf_reconstructed df prefix values :
  wf df = true ->
  ~ In (PyStr.rstrip "_" prefix) (Pd.columns df) ->
  List.length values = Pd.nrows df ->
  let out := others df prefix ++ [(PyStr.rstrip "_" prefix, Object values)] in
  wf out = true /\ Pd.nrows out = Pd.nrows df.
Proof.
  intros Hwf Hfresh Hlen out.
  destruct (wf_intro out (Pd.nrows df)) as [Hout Hrows].
  - unfold out, Pd.columns. rewrite map_app. apply NoDup_app.
    + apply NoDup_columns_filter, wf_NoDup, Hwf.
    + simpl. constructor; [intros [] | constructor].
    + intros c Hc [<-|[]]. apply Hfresh.
      now apply columns_others_incl with prefix.
  - intros [c s] Hin. unfold out in Hin. apply in_app_or in Hin as [Hin|Hin].
    + unfold others in Hin. apply filter_In in Hin as [Hin _].
      now apply wf_len with c.
    + destruct Hin as [[= <- <-]|[]]. simpl. exact Hlen.
  - split; trivial. apply Hrows. unfold out. now destruct (others df prefix).
Qed.

Lemma wf_decoded df prefix :
  wf df = true ->
  ~ In (PyStr.rstrip "_" prefix) (Pd.columns df) ->
  let out := others df prefix
             ++ [(PyStr.rstrip "_" prefix,
                  Object (Pd.str_replace (selected df prefix)
                                         prefix EmptyString))] in
  wf out = true /\ Pd.nrows out = Pd.nrows df.
Proof.
  intros Hwf Hfresh. apply wf_reconstructed; trivial. apply length_decoded.
Qed.

(** What a call of [undummy] that returns has done, when the label of the
    reconstructed column is new. *)
Lemma undummy_returns h df prefix r h' :
  ~ In (PyStr.rstrip "_" prefix) (Pd.columns (h df)) ->
  undummy df prefix h = (Ok r, h') ->
  r = df
  /\ (exists values,
        List.length values = Pd.nrows (h df)
        /\ h' df = others (h df) prefix
                   ++ [(PyStr.rstrip "_" prefix, Object values)])
  /\ forall r', r' <> df -> h' r' = h r'.
Proof.
  intros Hfresh Hcall. pose proof (undummy_run h df prefix) as Hrun.
  destruct (undummy_frame (h df) prefix) as [out|e] eqn:Eout.
  - destruct Hrun as (h0 & Hcall0 & Hout & Hrest).
    rewrite Hcall0 in Hcall. injection Hcall as <- <-.
    split; trivial. split; trivial.
    destruct (undummy_frame_ok_fresh _ _ _ Hfresh Eout)
      as (values & Hlen & ->).
    exists values. now split.
  - rewrite Hrun in Hcall. discriminate.
Qed.

(** X12.  Whenever [undummy] returns, having added its column under a new
    label, it leaves the frame well-formed (distinct labels, columns of one
    length) and with the rows it had. *)
Theorem undummy_keeps_frame_well_formed
        (h h' : store) (df : ref) (prefix : string) :
  wf (h df) = true ->
  ~ In (PyStr.rstrip "_" prefix) (Pd.columns (h df)) ->
  undummy df prefix h = (Ok df, h') ->
  wf (h' df) = true /\ Pd.nrows (h' df) = Pd.nrows (h df).
Proof.
  intros Hwf Hfresh Hcall.
  destruct (undummy_returns h df prefix df h' Hfresh Hcall)
    as (_ & (values & Hlen & Hout) & _).
  rewrite Hout. now apply wf_reconstructed.
Qed.

Lemma undummy_keeps_frame_well_formed_witness :
  let h : store := fun _ => [("cat_A", Numeric [Some 1%Z; Some 0%Z]);
                             ("yhat", Numeric [Some 12%Z; Some 15%Z]);
                             ("cat_B", Numeric [Some 0%Z; Some 1%Z])] in
  let h' : store := snd (undummy 0 "cat_" h) in
  undummy 0 "cat_" h = (Ok 0, h')
  /\ wf (h' 0) = true
  /\ Pd.nrows (h' 0) = Pd.nrows (h 0).
Proof.
  intros h h'. split; [reflexivity|].
  apply (undummy_keeps_frame_well_formed h h' 0 "cat_").
  - reflexivity.
  - simpl. intros [H|[H|[H|[]]]]; discriminate H.
  - reflexivity.
Defined.

(** X13.  Decoding is not repeatable: after a call of [undummy] that
    returns, on a frame with at least one row and with a new label that does
    not itself start with the prefix (as with any prefix ending in an
    underscore), no label starts with the prefix any more, and a second call
    with that prefix raises [ValueError], leaving the decoded frame as it
    is. *)
Theorem undummy_twice_raises (h h' : store) (df : ref) (prefix : string) :
  wf (h df) = true ->
  0 < Pd.nrows (h df) ->
  ~ In (PyStr.rstrip "_" prefix) (Pd.columns (h df)) ->
  PyStr.startswith (PyStr.rstrip "_" prefix) prefix = false ->
  undummy df prefix h = (Ok df, h') ->
  dummy_cols (h' df) prefix = []
  /\ undummy df prefix h' = (Raise ValueError, h').
Proof.
  intros Hwf Hrows Hfresh Hname Hcall.
  destruct (undummy_returns h df prefix df h' Hfresh Hcall)
    as (_ & (values & Hlen & Hout) & _).
  assert (Hnone : dummy_cols (h' df) prefix = []).
  { rewrite Hout. unfold dummy_cols. apply filter_none.
    intros c Hc. unfold Pd.columns in Hc. rewrite map_app in Hc.
    apply in_app_or in Hc as [Hc|[<-|[]]]; trivial.
    now apply columns_others_startswith with (h df). }
  split; [exact Hnone|].
  pose proof (undummy_run h' df prefix) as Hrun.
  rewrite undummy_frame_no_match in Hrun; trivial.
  rewrite Hout.
  destruct (wf_reconstructed (h df) prefix values Hwf Hfresh Hlen) as [_ ->].
  exact Hrows.
Qed.

Lemma undummy_twice_raises_witness :
  let h : store := fun _ => [("cat_A", Numeric [Some 1%Z; Some 0%Z]);
                             ("cat_B", Numeric [Some 0%Z; Some 1%Z])] in
  let h' : store := snd (undummy 0 "cat_" h) in
  undummy 0 "cat_" h = (Ok 0, h')
  /\ dummy_cols (h' 0) "cat_" = []
  /\ undummy 0 "cat_" h' = (Raise ValueError, h').
Proof.
  intros h h'. split; [reflexivity|].
  apply (undummy_twice_raises h h' 0 "cat_").
  - reflexivity.
  - simpl. lia.
  - simpl. intros [H|[H|[]]]; discriminate H.
  - reflexivity.
  - reflexivity.
Defined.

(* ================================================================== *)
(** * Decoding the indicator columns of one level set among others *)
(* ================================================================== *)

Lemma not_startswith_rstrip C :
  PyStr.startswith (PyStr.rstrip "_" (C ++ "_")) (C ++ "_") = false.
Proof.
  destruct (PyStr.startswith _ _) eqn:E; trivial.
  apply startswith_length in E.
  rewrite rstrip_append_us, length_append in E.
  pose proof (length_rstrip C). simpl in E. lia.
Qed.

Section BlockDecode.
Import Pd.

Variables pre post : DataFrame.
Variable C : string.
Variable l : list (option string).

Local Abbreviation P := (C ++ "_")%string.
Local Abbreviation label := (fun v : string => (C ++ "_" ++ v)%string).
Local Abbreviation lv := (levels string_dec String.leb l).
Local Abbreviation block := (dummies string_dec String.leb (fun v => v) C "_" l).
Local Abbreviation df := (pre ++ block ++ post).

Hypothesis Hnd : NoDup (columns (pre ++ post)).
Hypothesis Hlen :
  forall col, In col (pre ++ post) -> series_len (snd col) = List.length l.
Hypothesis Hfree :
  forall c, In c (columns (pre ++ post)) -> PyStr.startswith c P = false.
Hypothesis Hlabels : forall x, In x l -> x <> None.
Hypothesis Hrows : l <> [].

Lemma In_around (col : string * series) :
  In col df <-> In col (pre ++ post) \/ In col block.
Proof. rewrite !in_app_iff. tauto. Qed.

Lemma In_columns_around c :
  In c (columns df) <-> In c (columns (pre ++ post)) \/ In c (columns block).
Proof. unfold columns. rewrite !map_app, !in_app_iff. tauto. Qed.

Lemma NoDup_columns_around : NoDup (columns df).
Proof.
  unfold columns. rewrite !map_app.
  apply (Permutation_NoDup (l := map fst block ++ map fst pre ++ map fst post));
    [apply Permutation_app_swap_app|].
  apply NoDup_app.
  - apply (NoDup_columns_block C l).
  - unfold columns in Hnd. now rewrite map_app in Hnd.
  - intros c Hb Ho. apply (block_startswith C l) in Hb.
    rewrite <- map_app in Ho. apply Hfree in Ho. congruence.
Qed.

Lemma wf_around : wf df = true /\ nrows df = List.length l.
Proof.
  destruct (wf_intro df (List.length l)) as [Hwf Hn].
  - apply NoDup_columns_around.
  - intros col H. apply In_around in H as [H|H]; [auto | now apply block_len in H].
  - split; trivial. apply Hn. intros E.
    apply app_eq_nil in E as [_ E]. apply app_eq_nil in E as [E _].
    now apply (block_nonempty C l Hlabels Hrows).
Qed.

Lemma dummy_cols_around : dummy_cols df P = columns block.
Proof.
  unfold dummy_cols, columns. rewrite !map_app, !filter_app.
  rewrite (filter_none _ (map fst pre)), (filter_none _ (map fst post)).
  - rewrite app_nil_r. simpl. apply forallb_filter_id, forallb_forall.
    intros c Hc. now apply (block_startswith C l).
  - intros c Hc. apply Hfree. unfold columns. rewrite map_app.
    apply in_or_app. now right.
  - intros c Hc. apply Hfree. unfold columns. rewrite map_app.
    apply in_or_app. now left.
Qed.

Lemma indicators_numeric_around : indicators_numeric df P = true.
Proof.
  unfold indicators_numeric. apply forallb_forall. intros [c s] H.
  apply In_around in H as [H|H]; simpl.
  - rewrite Hfree; trivial. change c with (fst (c, s)). now apply in_map.
  - apply dummies_cells in H as (vals & E & _). simpl in E. subst s.
    apply orb_true_r.
Qed.

Lemma others_around : others df P = pre ++ post.
Proof.
  unfold others. rewrite !filter_app. rewrite (filter_none _ block).
  - simpl. f_equal; apply forallb_filter_id, forallb_forall;
      intros [c s] H; simpl; rewrite Hfree; trivial;
      change c with (fst (c, s)); apply in_map, in_or_app; auto.
  - intros [c s] H. simpl. rewrite (block_startswith C l); trivial.
    change c with (fst (c, s)). now apply in_map.
Qed.

Lemma value_at_around v i y :
  In v lv -> nth_error l i = Some (Some y) ->
  value_at df (label v) i = Some (if string_dec y v then 1%Z else 0%Z).
Proof.
  intros Hv Hi. unfold value_at.
  rewrite (In_lookup (label v) (indicator string_dec v l) df).
  - exact (indicator_nth _ string_dec v l i y Hi).
  - apply NoDup_columns_around.
  - apply In_around. right. unfold dummies.
    apply in_map_iff. exists v. now split.
Qed.

Lemma selected_around : selected df P = map (option_map label) l.
Proof.
  unfold selected.
  rewrite (proj2 wf_around), dummy_cols_around, columns_block.
  rewrite <- (map_seq_nth (option_map label) None l).
  apply map_ext_in. intros i Hi. apply in_seq in Hi.
  destruct (row_label l Hlabels i) as (y & Hy & Hin); [lia|].
  rewrite (nth_error_nth _ _ None Hy). simpl.
  rewrite map_map.
  rewrite (map_ext_in _ (fun v => (label v,
                                    Some (if string_dec y v then 1%Z else 0%Z)))).
  - apply (argmax_from_onehot label y); auto. apply NoDup_levels.
  - intros v Hv. cbv beta.
    apply f_equal2; [reflexivity | exact (value_at_around v i y Hv Hy)].
Qed.

Hypothesis Hstrip :
  forall v, In (Some v) l -> PyStr.replace (C ++ "_" ++ v) P EmptyString = v.
Hypothesis Hfresh : ~ In (PyStr.rstrip "_" C) (columns (pre ++ post)).

(** The indicator columns leave the frame, the decoded column comes last. *)
Lemma undummy_frame_around :
  undummy_frame df P = Ok (pre ++ post ++ [(PyStr.rstrip "_" C, Object l)]).
Proof.
  rewrite undummy_frame_fresh.
  - rewrite others_around, selected_around, (replaced_enc C l Hstrip),
      rstrip_append_us. now rewrite <- app_assoc.
  - apply wf_around.
  - rewrite dummy_cols_around. intros H. apply map_eq_nil in H.
    now apply (block_nonempty C l Hlabels Hrows).
  - apply indicators_numeric_around.
  - rewrite rstrip_append_us. intros H.
    apply In_columns_around in H as [H|H]; [contradiction|].
    apply (block_startswith C l) in H.
    rewrite <- rstrip_append_us, not_startswith_rstrip in H. discriminate.
Qed.

End BlockDecode.



(* ================================================================== *)
(** * The regressors of the script: lines 48, 69 and 94-99 *)
(* ================================================================== *)

Lemma regressor_prefixes_disjoint c :
  PyStr.startswith c "product_name_" = true ->
  PyStr.startswith c "distribution_center_name_" = false.
Proof.
  unfold PyStr.startswith. destruct c as [|a c]; [discriminate|].
  cbn [String.prefix]. destruct (ascii_dec "p" a) as [<-|_]; [|discriminate].
  intros _. destruct (ascii_dec "d" "p") as [E|_]; [discriminate E|reflexivity].
Qed.

Lemma get_dummies_two (data : DataFrame) a b sa sb :
  Pd.lookup a data = Some sa -> Pd.lookup b data = Some sb ->
  get_dummies data [a; b]
  = Ok (kept data [a; b]
        ++ get_dummies_1d a "_" sa ++ get_dummies_1d b "_" sb).
Proof.
  intros Ha Hb. unfold get_dummies. simpl. rewrite Ha, Hb. simpl.
  now rewrite app_nil_r.
Qed.

Lemma columns_kept_list (data : DataFrame) cs c :
  In c (Pd.columns (kept data cs)) <-> In c (Pd.columns data) /\ ~ In c cs.
Proof.
  unfold Pd.columns, kept. rewrite !in_map_iff. split.
  - intros ([c' s] & <- & H). apply filter_In in H as [H E]. simpl in *.
    split; [exists (c', s); auto|].
    intros Hin. apply mem_In in Hin. now rewrite Hin in E.
  - intros [([c' s] & <- & H) Hne]. exists (c', s). split; trivial.
    apply filter_In. split; trivial. simpl in *.
    destruct (mem c' cs) eqn:E; trivial. apply mem_In in E. contradiction.
Qed.

Lemma filter_twice {A} (p q : A -> bool) l :
  filter q (filter p l) = filter (fun x => p x && q x) l.
Proof.
  induction l as [|x l IH]; simpl; trivial.
  destruct (p x); simpl; [destruct (q x)|]; now rewrite IH.
Qed.

Lemma kept_kept (data : DataFrame) a b :
  kept (kept data [a]) [b] = kept data [a; b].
Proof.
  unfold kept. rewrite filter_twice. apply filter_ext. intros [c s]. simpl.
  now destruct (String.eqb c a), (String.eqb c b).
Qed.

Lemma wf_kept (data : DataFrame) cs s c :
  wf data = true -> In (c, s) (kept data cs) ->
  wf (kept data cs) = true /\ Pd.nrows (kept data cs) = Pd.nrows data.
Proof.
  intros Hwf Hin.
  destruct (wf_intro (kept data cs) (Pd.nrows data)) as [H1 H2].
  - apply NoDup_columns_filter, wf_NoDup, Hwf.
  - intros [c' s'] H. unfold kept in H. apply filter_In in H as [H _].
    now apply wf_len with c'.
  - split; trivial. apply H2. intros E. now rewrite E in Hin.
Qed.

(** Both encoded columns leave the frame, and only they. *)
Lemma kept_two_permutation (data : DataFrame) a b la lb :
  wf data = true -> a <> b ->
  Pd.lookup a data = Some (Object la) -> Pd.lookup b data = Some (Object lb) ->
  Permutation (kept data [a; b] ++ [(a, Object la); (b, Object lb)]) data.
Proof.
  intros Hwf Hab Ha Hb.
  pose proof (kept_permutation data a la Hwf Ha) as P1.
  assert (Hin : In (b, Object lb) (kept data [a])).
  { unfold kept. apply filter_In. split; [now apply lookup_In|].
    simpl. rewrite orb_false_r.
    destruct (String.eqb_spec b a); [congruence | reflexivity]. }
  destruct (wf_kept data [a] _ _ Hwf Hin) as [Hwf' _].
  assert (Hb' : Pd.lookup b (kept data [a]) = Some (Object lb))
    by (apply In_lookup; [now apply wf_NoDup | exact Hin]).
  pose proof (kept_permutation (kept data [a]) b lb Hwf' Hb') as P2.
  rewrite kept_kept in P2.
  eapply Permutation_trans; [|exact P1].
  eapply Permutation_trans; [|apply Permutation_app_tail, P2].
  rewrite <- app_assoc. apply Permutation_app_head. apply perm_swap.
Qed.

Section ScriptRegressors.
Import Pd.

Variable data : DataFrame.
Variables l1 l2 : list (option string).

Local Abbreviation A := "distribution_center_name".
Local Abbreviation B := "product_name".
Local Abbreviation blockA := (get_dummies_1d A "_" (Object l1)).
Local Abbreviation blockB := (get_dummies_1d B "_" (Object l2)).
Local Abbreviation kept2 := (kept data [A; B]).

Hypothesis Hwf : wf data = true.
Hypothesis HA : lookup A data = Some (Object l1).
Hypothesis HB : lookup B data = Some (Object l2).
Hypothesis Hfree :
  forall c, In c (columns data) -> c <> A -> c <> B ->
            PyStr.startswith c "distribution_center_name_" = false
            /\ PyStr.startswith c "product_name_" = false.

Lemma encode_regressors_shape :
  encode_regressors data = Ok (kept2 ++ blockA ++ blockB).
Proof. exact (get_dummies_two data A B _ _ HA HB). Qed.

Lemma kept2_free c :
  In c (columns kept2) ->
  PyStr.startswith c "distribution_center_name_" = false
  /\ PyStr.startswith c "product_name_" = false /\ c <> A /\ c <> B.
Proof.
  intros H. apply columns_kept_list in H as [Hin Hnot].
  assert (Ha : c <> A) by (intros ->; apply Hnot; simpl; auto).
  assert (Hb : c <> B) by (intros ->; apply Hnot; simpl; auto).
  destruct (Hfree c Hin Ha Hb). auto.
Qed.

Lemma lengths_equal :
  List.length l1 = nrows data /\ List.length l2 = nrows data.
Proof.
  split.
  - apply (wf_len data A (Object l1) Hwf (lookup_In _ _ _ HA)).
  - apply (wf_len data B (Object l2) Hwf (lookup_In _ _ _ HB)).
Qed.

Lemma kept2_len col : In col kept2 -> series_len (snd col) = nrows data.
Proof.
  unfold kept. intros H. apply filter_In in H as [H _].
  destruct col as [c s]. now apply wf_len with c.
Qed.

Lemma regressor_columns_encoded :
  regressor_columns (kept2 ++ blockA ++ blockB)
  = columns blockA ++ columns blockB.
Proof.
  unfold regressor_columns, columns. rewrite !map_app, !filter_app.
  rewrite (filter_none _ (map fst kept2)).
  - simpl. f_equal; apply forallb_filter_id, forallb_forall; intros c Hc.
    + pose proof (block_startswith A l1 c Hc) as E.
      change (PyStr.startswith c "distribution_center_name_" = true) in E.
      now rewrite E.
    + pose proof (block_startswith B l2 c Hc) as E.
      change (PyStr.startswith c "product_name_" = true) in E.
      rewrite E. apply orb_true_r.
  - intros c Hc. destruct (kept2_free c Hc) as (-> & -> & _). reflexivity.
Qed.

Hypothesis Hl1 : forall x, In x l1 -> x <> None.
Hypothesis Hl2 : forall x, In x l2 -> x <> None.
Hypothesis Hrows : l1 <> [].
Hypothesis Hs1 :
  forall v, In (Some v) l1 ->
            PyStr.replace ("distribution_center_name" ++ "_" ++ v)
                          "distribution_center_name_" EmptyString = v.
Hypothesis Hs2 :
  forall v, In (Some v) l2 ->
            PyStr.replace ("product_name" ++ "_" ++ v)
                          "product_name_" EmptyString = v.

Lemma rows_second : l2 <> [].
Proof.
  destruct lengths_equal as [E1 E2]. intros E. rewrite E in E2. simpl in E2.
  rewrite <- E2 in E1. now destruct l1.
Qed.

(** Line 94 on the encoded frame. *)
Lemma decode_first :
  undummy_frame (kept2 ++ blockA ++ blockB) "distribution_center_name_"
  = Ok (kept2 ++ blockB ++ [(A, Object l1)]).
Proof.
  destruct lengths_equal as [E1 E2].
  apply (undummy_frame_around kept2 blockB A l1); trivial.
  - unfold columns. rewrite map_app. apply NoDup_app.
    + apply NoDup_columns_filter, wf_NoDup, Hwf.
    + apply (NoDup_columns_block B l2).
    + intros c Hk Hb. apply kept2_free in Hk as (_ & Hk & _).
      apply (block_startswith B l2) in Hb. simpl in Hb. congruence.
  - intros col H. apply in_app_or in H as [H|H].
    + rewrite E1. now apply kept2_len.
    + rewrite (block_len B l2 col H). congruence.
  - intros c H. unfold columns in H. rewrite map_app in H.
    apply in_app_or in H as [H|H].
    + now apply kept2_free in H.
    + apply regressor_prefixes_disjoint. exact (block_startswith B l2 c H).
  - intros H. unfold columns in H. rewrite map_app in H.
    apply in_app_or in H as [H|H].
    + apply kept2_free in H as (_ & _ & H & _). now apply H.
    + apply (block_startswith B l2) in H. discriminate H.
Qed.

(** Line 97 on the frame line 94 leaves. *)
Lemma decode_second :
  undummy_frame (kept2 ++ blockB ++ [(A, Object l1)]) "product_name_"
  = Ok (kept2 ++ [(A, Object l1); (B, Object l2)]).
Proof.
  destruct lengths_equal as [E1 E2].
  apply (undummy_frame_around kept2 [(A, Object l1)] B l2); trivial.
  - unfold columns. rewrite map_app. apply NoDup_app.
    + apply NoDup_columns_filter, wf_NoDup, Hwf.
    + simpl. constructor; [intros []|constructor].
    + intros c Hk [<-|[]]. apply kept2_free in Hk as (_ & _ & Hk & _).
      now apply Hk.
  - intros col H. apply in_app_or in H as [H|[<-|[]]].
    + rewrite E2. now apply kept2_len.
    + simpl. congruence.
  - intros c H. unfold columns in H. rewrite map_app in H.
    apply in_app_or in H as [H|[<-|[]]].
    + now apply kept2_free in H.
    + reflexivity.
  - apply rows_second.
  - intros H. unfold columns in H. rewrite map_app in H.
    apply in_app_or in H as [H|[H|[]]].
    + apply kept2_free in H as (_ & _ & _ & H). now apply H.
    + discriminate H.
Qed.

End ScriptRegressors.

(** X15.  After line 48, when no other column of the data bears one of the
    two prefixes, the regressor columns of line 69 (and of the loop of lines
    58-60) are exactly the indicator columns of the two encoded columns: first
    those of the levels of [distribution_center_name], then those of the
    levels of [product_name], each once. *)
Theorem regressor_columns_are_indicator_columns
        (data : DataFrame) (l1 l2 : list (option string)) :
  Pd.lookup "distribution_center_name" data = Some (Object l1) ->
  Pd.lookup "product_name" data = Some (Object l2) ->
  (forall c, In c (Pd.columns data) ->
             c <> "distribution_center_name" -> c <> "product_name" ->
             PyStr.startswith c "distribution_center_name_" = false
             /\ PyStr.startswith c "product_name_" = false) ->
  exists enc,
    encode_regressors data = Ok enc
    /\ regressor_columns enc
       = map (fun v => ("distribution_center_name" ++ "_" ++ v)%string)
             (levels string_dec String.leb l1)
         ++ map (fun v => ("product_name" ++ "_" ++ v)%string)
                (levels string_dec String.leb l2)
    /\ NoDup (regressor_columns enc).
Proof.
  intros HA HB Hfree. eexists.
  split; [exact (encode_regressors_shape data l1 l2 HA HB)|].
  rewrite (regressor_columns_encoded data l1 l2 Hfree).
  split.
  - unfold get_dummies_1d. now rewrite !columns_block.
  - apply NoDup_app.
    + apply (NoDup_columns_block "distribution_center_name" l1).
    + apply (NoDup_columns_block "product_name" l2).
    + intros c H1 H2.
      apply (block_startswith "distribution_center_name" l1) in H1.
      apply (block_startswith "product_name" l2) in H2.
      apply regressor_prefixes_disjoint in H2. simpl in H1. congruence.
Qed.

Lemma regressor_columns_are_indicator_columns_witness :
  let data := [("ds", Object [Some "mon"; Some "tue"]);
               ("distribution_center_name", Object [Some "north"; Some "east"]);
               ("y", Numeric [Some 3%Z; Some 4%Z]);
               ("product_name", Object [Some "tea"; Some "tea"])] in
  exists enc,
    encode_regressors data = Ok enc
    /\ regressor_columns enc
       = map (fun v => ("distribution_center_name" ++ "_" ++ v)%string)
             (levels string_dec String.leb [Some "north"; Some "east"])
         ++ map (fun v => ("product_name" ++ "_" ++ v)%string)
                (levels string_dec String.leb [Some "tea"; Some "tea"])
    /\ NoDup (regressor_columns enc).
Proof.
  apply (regressor_columns_are_indicator_columns
           [("ds", Object [Some "mon"; Some "tue"]);
            ("distribution_center_name", Object [Some "north"; Some "east"]);
            ("y", Numeric [Some 3%Z; Some 4%Z]);
            ("product_name", Object [Some "tea"; Some "tea"])]
           [Some "north"; Some "east"] [Some "tea"; Some "tea"]).
  - reflexivity.
  - reflexivity.
  - simpl. intros c [<-|[<-|[<-|[<-|[]]]]] H1 H2;
      try congruence; split; reflexivity.
Defined.

(** X16.  The round trip of the script.  For well-formed data whose columns
    [distribution_center_name] and [product_name] hold a label on every row
    (there being at least one row), no other column bearing one of the two
    prefixes, and removing the prefix from an indicator label leaving its
    level: encoding both columns (line 48) and decoding one prefix after the
    other (lines 94 and 97) gives back the columns of the data, the two
    decoded columns equal to the original ones and placed last. *)
Theorem regressors_round_trip
        (data : DataFrame) (l1 l2 : list (option string)) :
  wf data = true ->
  Pd.lookup "distribution_center_name" data = Some (Object l1) ->
  Pd.lookup "product_name" data = Some (Object l2) ->
  (forall c, In c (Pd.columns data) ->
             c <> "distribution_center_name" -> c <> "product_name" ->
             PyStr.startswith c "distribution_center_name_" = false
             /\ PyStr.startswith c "product_name_" = false) ->
  (forall x, In x l1 -> x <> None) ->
  (forall x, In x l2 -> x <> None) ->
  l1 <> [] ->
  (forall v, In (Some v) l1 ->
             PyStr.replace ("distribution_center_name" ++ "_" ++ v)
                           "distribution_center_name_" EmptyString = v) ->
  (forall v, In (Some v) l2 ->
             PyStr.replace ("product_name" ++ "_" ++ v)
                           "product_name_" EmptyString = v) ->
  exists enc,
    encode_regressors data = Ok enc
    /\ forall (h : store) (df : ref),
        h df = enc ->
        exists h',
          (forecast <- undummy df "distribution_center_name_" ;;
           undummy forecast "product_name_") h = (Ok df, h')
          /\ h' df = kept data ["distribution_center_name"; "product_name"]
                     ++ [("distribution_center_name", Object l1);
                         ("product_name", Object l2)]
          /\ Permutation (h' df) data.
Proof.
  intros Hwf HA HB Hfree Hl1 Hl2 Hrows Hs1 Hs2. eexists.
  split; [exact (encode_regressors_shape data l1 l2 HA HB)|].
  intros h df Henc. unfold bind.
  pose proof (undummy_run h df "distribution_center_name_") as R1.
  rewrite Henc in R1.
  rewrite (decode_first data l1 l2) in R1 by assumption.
  destruct R1 as (h1 & -> & E1 & _).
  pose proof (undummy_run h1 df "product_name_") as R2.
  rewrite E1 in R2.
  rewrite (decode_second data l1 l2) in R2 by assumption.
  destruct R2 as (h2 & -> & E2 & _).
  exists h2. split; [reflexivity|]. split; [exact E2|].
  rewrite E2. apply kept_two_permutation; trivial. discriminate.
Qed.

Lemma regressors_round_trip_witness :
  let data := [("ds", Object [Some "mon"; Some "tue"]);
               ("distribution_center_name", Object [Some "north"; Some "east"]);
               ("y", Numeric [Some 3%Z; Some 4%Z]);
               ("product_name", Object [Some "tea"; Some "tea"])] in
  exists enc,
    encode_regressors data = Ok enc
    /\ forall (h : store) (df : ref),
        h df = enc ->
        exists h',
          (forecast <- undummy df "distribution_center_name_" ;;
           undummy forecast "product_name_") h = (Ok df, h')
          /\ h' df = kept data ["distribution_center_name"; "product_name"]
                     ++ [("distribution_center_name",
                          Object [Some "north"; Some "east"]);
                         ("product_name", Object [Some "tea"; Some "tea"])]
          /\ Permutation (h' df) data.
Proof.
  apply (regressors_round_trip
           [("ds", Object [Some "mon"; Some "tue"]);
            ("distribution_center_name", Object [Some "north"; Some "east"]);
            ("y", Numeric [Some 3%Z; Some 4%Z]);
            ("product_name", Object [Some "tea"; Some "tea"])]
           [Some "north"; Some "east"] [Some "tea"; Some "tea"]).
  - reflexivity.
  - reflexivity.
  - reflexivity.
  - simpl. intros c [<-|[<-|[<-|[<-|[]]]]] H1 H2;
      try congruence; split; reflexivity.
  - simpl. intros x [<-|[<-|[]]]; discriminate.
  - simpl. intros x [<-|[<-|[]]]; discriminate.
  - discriminate.
  - simpl. intros v [H|[H|[]]]; injection H as <-; reflexivity.
  - simpl. intros v [H|[H|[]]]; injection H as <-; reflexivity.
Defined.

(* ================================================================== *)
(** * Two decodings in a row *)
(* ================================================================== *)

Lemma lookup_app (df1 df2 : DataFrame) c :
  Pd.lookup c (df1 ++ df2)
  = match Pd.lookup c df1 with
    | Some s => Some s
    | None => Pd.lookup c df2
    end.
Proof.
  induction df1 as [|[c' s'] df1 IH]; simpl; trivial.
  now destruct (String.eqb c' c).
Qed.

Lemma lookup_others df prefix c :
  PyStr.startswith c prefix = false ->
  Pd.lookup c (others df prefix) = Pd.lookup c df.
Proof.
  intros Hc. unfold others. induction df as [|[c' s'] df IH]; simpl; trivial.
  destruct (String.eqb_spec c' c) as [->|Hne].
  - rewrite Hc. simpl. now rewrite String.eqb_refl.
  - destruct (PyStr.startswith c' prefix); simpl; trivial.
    destruct (String.eqb_spec c' c); [contradiction | trivial].
Qed.

(** A column that is not decoded is found after the decoding as before. *)
Lemma lookup_decoded df prefix c name s :
  PyStr.startswith c prefix = false -> c <> name ->
  Pd.lookup c (others df prefix ++ [(name, s)]) = Pd.lookup c df.
Proof.
  intros Hc Hne. rewrite lookup_app, lookup_others by trivial.
  destruct (Pd.lookup c df); trivial. simpl.
  destruct (String.eqb_spec name c); [congruence | trivial].
Qed.

Section TwoDecodes.
Import Pd.

Variable f : DataFrame.
Variables p q : string.
Variable s : series.

Local Abbreviation name := (PyStr.rstrip "_" p).
Local Abbreviation f1 := (others f p ++ [(name, s)]).

(** No label starts with both prefixes, and the label of the first decoded
    column does not start with the second prefix. *)
Hypothesis Hpq :
  forall c, PyStr.startswith c q = true -> PyStr.startswith c p = false.
Hypothesis Hname : PyStr.startswith name q = false.

Lemma dummy_cols_after : dummy_cols f1 q = dummy_cols f q.
Proof.
  unfold dummy_cols, columns, others. rewrite map_app, filter_app. simpl.
  rewrite Hname, app_nil_r.
  induction f as [|[c x] df IH]; simpl; trivial.
  destruct (PyStr.startswith c q) eqn:Eq.
  - rewrite (Hpq c Eq). simpl. rewrite Eq. now rewrite IH.
  - destruct (PyStr.startswith c p); simpl; [|rewrite Eq]; exact IH.
Qed.

Lemma indicators_numeric_after :
  indicators_numeric f q = true -> indicators_numeric f1 q = true.
Proof.
  unfold indicators_numeric. rewrite forallb_app. intros H.
  apply andb_true_iff. split.
  - rewrite forallb_forall in *. intros col Hc. apply H.
    unfold others in Hc. now apply filter_In in Hc.
  - simpl. now rewrite Hname.
Qed.

Lemma value_at_after c i :
  PyStr.startswith c q = true -> value_at f1 c i = value_at f c i.
Proof.
  intros Hc. unfold value_at. rewrite lookup_decoded; trivial.
  - now apply Hpq.
  - intros ->. congruence.
Qed.

Hypothesis Hwf : wf f = true.
Hypothesis Hfresh : ~ In name (columns f).
Hypothesis Hlen : series_len s = nrows f.

Lemma wf_after : wf f1 = true /\ nrows f1 = nrows f.
Proof.
  destruct (wf_intro f1 (nrows f)) as [H1 H2].
  - unfold columns. rewrite map_app. apply NoDup_app.
    + apply NoDup_columns_filter, wf_NoDup, Hwf.
    + simpl. constructor; [intros [] | constructor].
    + intros c Hc [<-|[]]. apply Hfresh.
      now apply columns_others_incl with p.
  - intros [c x] Hin. apply in_app_or in Hin as [Hin|[[= <- <-]|[]]]; trivial.
    unfold others in Hin. apply filter_In in Hin as [Hin _].
    now apply wf_len with c.
  - split; trivial. apply H2. now destruct (others f p).
Qed.

(** The second decoding selects what it would have selected in the frame as
    it was before the first. *)
Lemma selected_after : selected f1 q = selected f q.
Proof.
  unfold selected. rewrite (proj2 wf_after), dummy_cols_after.
  apply map_ext. intros i. f_equal. apply map_ext_in. intros c Hc.
  f_equal. apply value_at_after.
  unfold dummy_cols in Hc. now apply filter_In in Hc.
Qed.

Lemma others_after : others f1 q = others (others f p) q ++ [(name, s)].
Proof. unfold others at 1. rewrite filter_app. simpl. now rewrite Hname. Qed.

End TwoDecodes.

Lemma others_comm df p q : others (others df p) q = others (others df q) p.
Proof.
  unfold others. rewrite !filter_twice. apply filter_ext.
  intros col. apply andb_comm.
Qed.

Lemma lookup_absent (df : DataFrame) c :
  ~ In c (Pd.columns df) -> Pd.lookup c df = None.
Proof.
  intros H. destruct (Pd.lookup c df) as [s|] eqn:E; trivial.
  exfalso. apply H. apply lookup_In in E.
  change c with (fst (c, s)). now apply in_map.
Qed.

(** Two decodings in a row, the labels of the decoded columns being new. *)
Lemma two_decodes_run h df p q :
  wf (h df) = true ->
  dummy_cols (h df) p <> [] -> indicators_numeric (h df) p = true ->
  dummy_cols (h df) q <> [] -> indicators_numeric (h df) q = true ->
  ~ In (PyStr.rstrip "_" p) (Pd.columns (h df)) ->
  ~ In (PyStr.rstrip "_" q) (Pd.columns (h df)) ->
  PyStr.rstrip "_" p <> PyStr.rstrip "_" q ->
  (forall c, PyStr.startswith c q = true -> PyStr.startswith c p = false) ->
  PyStr.startswith (PyStr.rstrip "_" p) q = false ->
  exists h1 h2,
    undummy df p h = (Ok df, h1)
    /\ undummy df q h1 = (Ok df, h2)
    /\ h1 df = others (h df) p
               ++ [(PyStr.rstrip "_" p,
                    Object (Pd.str_replace (selected (h df) p) p EmptyString))]
    /\ h2 df = others (others (h df) p) q
               ++ [(PyStr.rstrip "_" p,
                    Object (Pd.str_replace (selected (h df) p) p EmptyString));
                   (PyStr.rstrip "_" q,
                    Object (Pd.str_replace (selected (h df) q) q EmptyString))]
    /\ forall r, r <> df -> h2 r = h r.
Proof.
  intros Hwf Hp Hnp Hq Hnq Hfp Hfq Hne Hpq Hname.
  destruct (undummy_fresh_run h df p Hwf Hp Hnp Hfp)
    as (h1 & Hcall1 & E1 & _ & O1).
  set (s := Object (Pd.str_replace (selected (h df) p) p EmptyString)) in *.
  assert (Hlen : series_len s = Pd.nrows (h df)) by apply length_decoded.
  destruct (wf_after (h df) p s Hwf Hfp Hlen) as [Hwf1 _].
  destruct (undummy_fresh_run h1 df q) as (h2 & Hcall2 & E2 & _ & O2).
  - now rewrite E1.
  - rewrite E1, (dummy_cols_after (h df) p q s Hpq Hname). exact Hq.
  - rewrite E1. now apply indicators_numeric_after.
  - rewrite E1. unfold Pd.columns. rewrite map_app. intros H.
    apply in_app_or in H as [H|[H|[]]].
    + apply Hfq. now apply columns_others_incl with p.
    + now apply Hne.
  - exists h1, h2. split; [exact Hcall1|]. split; [exact Hcall2|].
    split; [exact E1|]. split.
    + rewrite E2, E1.
      rewrite (selected_after (h df) p q s Hpq Hname Hwf Hfp Hlen).
      rewrite (others_after (h df) p q s Hname).
      now rewrite <- app_assoc.
    + intros r Hr. now rewrite O2, O1.
Qed.

(** X17.  Two decodings with prefixes that no label bears together do not
    depend on each other.  When the columns under either prefix are numbers
    that [float64] holds exactly, with one on every row at least: in either
    order both succeed, each decodes the values it would decode alone in the
    original frame, and the two final frames hold the same columns, only the
    two decoded columns coming in the order of the calls. *)
Theorem undummy_order_independent (h : store) (df : ref) (p q : string) :
  wf (h df) = true ->
  dummy_cols (h df) p <> [] -> decodable (h df) p = true ->
  dummy_cols (h df) q <> [] -> decodable (h df) q = true ->
  ~ In (PyStr.rstrip "_" p) (Pd.columns (h df)) ->
  ~ In (PyStr.rstrip "_" q) (Pd.columns (h df)) ->
  PyStr.rstrip "_" p <> PyStr.rstrip "_" q ->
  (forall c, PyStr.startswith c q = true -> PyStr.startswith c p = false) ->
  PyStr.startswith (PyStr.rstrip "_" p) q = false ->
  PyStr.startswith (PyStr.rstrip "_" q) p = false ->
  exists hpq hqp,
    (x <- undummy df p ;; undummy x q) h = (Ok df, hpq)
    /\ (x <- undummy df q ;; undummy x p) h = (Ok df, hqp)
    /\ let base := others (others (h df) p) q in
       let cp := (PyStr.rstrip "_" p,
                  Object (Pd.str_replace (selected (h df) p) p EmptyString)) in
       let cq := (PyStr.rstrip "_" q,
                  Object (Pd.str_replace (selected (h df) q) q EmptyString)) in
       hpq df = base ++ [cp; cq] /\ hqp df = base ++ [cq; cp].
Proof.
  intros Hwf Hp Hnp Hq Hnq Hfp Hfq Hne Hpq Hnp' Hnq'.
  apply decodable_numeric in Hnp, Hnq.
  assert (Hqp : forall c, PyStr.startswith c p = true ->
                          PyStr.startswith c q = false).
  { intros c Hc. destruct (PyStr.startswith c q) eqn:E; trivial.
    apply Hpq in E. congruence. }
  destruct (two_decodes_run h df p q) as (h1 & hpq & C1 & C2 & _ & E & _);
    trivial.
  destruct (two_decodes_run h df q p) as (h1' & hqp & C1' & C2' & _ & E' & _);
    auto.
  exists hpq, hqp. unfold bind. rewrite C1, C2, C1', C2'.
  split; [reflexivity|]. split; [reflexivity|]. cbv zeta.
  split; [exact E|]. now rewrite E', others_comm.
Qed.

Lemma undummy_order_independent_witness :
  let h : store := fun _ => [("site_A", Numeric [Some 1%Z; Some 0%Z]);
                             ("yhat", Numeric [Some 12%Z; Some 15%Z]);
                             ("item_X", Numeric [Some 0%Z; Some 1%Z]);
                             ("site_B", Numeric [Some 0%Z; Some 1%Z]);
                             ("item_Y", Numeric [Some 1%Z; Some 0%Z])] in
  exists hpq hqp,
    (x <- undummy 0 "site_" ;; undummy x "item_") h = (Ok 0, hpq)
    /\ (x <- undummy 0 "item_" ;; undummy x "site_") h = (Ok 0, hqp)
    /\ let base := others (others (h 0) "site_") "item_" in
       let cp := (PyStr.rstrip "_" "site_",
                  Object (Pd.str_replace (selected (h 0) "site_")
                                         "site_" EmptyString)) in
       let cq := (PyStr.rstrip "_" "item_",
                  Object (Pd.str_replace (selected (h 0) "item_")
                                         "item_" EmptyString)) in
       hpq 0 = base ++ [cp; cq] /\ hqp 0 = base ++ [cq; cp].
Proof.
  apply (undummy_order_independent
           (fun _ => [("site_A", Numeric [Some 1%Z; Some 0%Z]);
                      ("yhat", Numeric [Some 12%Z; Some 15%Z]);
                      ("item_X", Numeric [Some 0%Z; Some 1%Z]);
                      ("site_B", Numeric [Some 0%Z; Some 1%Z]);
                      ("item_Y", Numeric [Some 1%Z; Some 0%Z])])
           0 "site_" "item_").
  - reflexivity.
  - discriminate.
  - reflexivity.
  - discriminate.
  - reflexivity.
  - simpl. intros [H|[H|[H|[H|[H|[]]]]]]; discriminate H.
  - simpl. intros [H|[H|[H|[H|[H|[]]]]]]; discriminate H.
  - discriminate.
  - intros c. unfold PyStr.startswith. destruct c as [|a c]; [discriminate|].
    cbn [String.prefix]. destruct (ascii_dec "i" a) as [<-|_]; [|discriminate].
    intros _. destruct (ascii_dec "s" "i") as [E|_]; [discriminate E|reflexivity].
  - reflexivity.
  - reflexivity.
Defined.

(* ================================================================== *)
(** * The decoding of the forecast: lines 94-99 *)
(* ================================================================== *)

Lemma getitem_missing (df : DataFrame) labels c :
  In c labels -> Pd.lookup c df = None ->
  Pd.getitem df labels = Raise KeyError.
Proof.
  intros Hin Hc. induction labels as [|c0 labels IH]; [contradiction|].
  simpl. destruct (Pd.lookup c0 df) as [s0|] eqn:E0; trivial.
  destruct Hin as [->|Hin]; [congruence|]. now rewrite IH.
Qed.

Section Forecast.
Import Pd.

Variable f : DataFrame.
Variables v1 v2 : series.

Local Abbreviation final :=
  (others (others f "distribution_center_name_") "product_name_"
   ++ [("distribution_center_name", v1); ("product_name", v2)]).

(** A column of the forecast that bears none of the two prefixes is found
    in the decoded forecast as it was. *)
Lemma lookup_final c :
  PyStr.startswith c "distribution_center_name_" = false ->
  PyStr.startswith c "product_name_" = false ->
  c <> "distribution_center_name" -> c <> "product_name" ->
  lookup c final = lookup c f.
Proof.
  intros Hp Hq Ha Hb. rewrite lookup_app, !lookup_others by trivial.
  destruct (lookup c f); trivial.
  assert (E1 : String.eqb "distribution_center_name" c = false)
    by (apply String.eqb_neq; congruence).
  assert (E2 : String.eqb "product_name" c = false)
    by (apply String.eqb_neq; congruence).
  cbn [lookup]. now rewrite E1, E2.
Qed.

Hypothesis Hfa : ~ In "distribution_center_name" (columns f).
Hypothesis Hfb : ~ In "product_name" (columns f).

Lemma lookup_final_first : lookup "distribution_center_name" final = Some v1.
Proof.
  rewrite lookup_app, !lookup_others by reflexivity.
  rewrite (lookup_absent f _ Hfa). reflexivity.
Qed.

Lemma lookup_final_second : lookup "product_name" final = Some v2.
Proof.
  rewrite lookup_app, !lookup_others by reflexivity.
  rewrite (lookup_absent f _ Hfb). reflexivity.
Qed.

End Forecast.

(** X18.  On a well-formed forecast holding the columns [ds], [yhat],
    [yhat_lower] and [yhat_upper], indicator columns under both prefixes
    (numbers that [float64] holds exactly, one on every row at least) and no
    column yet labelled [distribution_center_name] or [product_name], lines
    94-99 raise nothing and produce a frame of exactly
    six columns, in the order of line 99: the four columns with the values
    they had, and the two decoded columns, each decoded from the indicator
    values the forecast had at first. *)
Theorem decode_forecast_result
        (h : store) (df : ref) (ds yhat lo up : series) :
  wf (h df) = true ->
  dummy_cols (h df) "distribution_center_name_" <> [] ->
  decodable (h df) "distribution_center_name_" = true ->
  dummy_cols (h df) "product_name_" <> [] ->
  decodable (h df) "product_name_" = true ->
  ~ In "distribution_center_name" (Pd.columns (h df)) ->
  ~ In "product_name" (Pd.columns (h df)) ->
  Pd.lookup "ds" (h df) = Some ds ->
  Pd.lookup "yhat" (h df) = Some yhat ->
  Pd.lookup "yhat_lower" (h df) = Some lo ->
  Pd.lookup "yhat_upper" (h df) = Some up ->
  exists h',
    decode_forecast df h
    = (Ok [("ds", ds);
           ("distribution_center_name",
            Object (Pd.str_replace
                      (selected (h df) "distribution_center_name_")
                      "distribution_center_name_" EmptyString));
           ("product_name",
            Object (Pd.str_replace (selected (h df) "product_name_")
                                   "product_name_" EmptyString));
           ("yhat", yhat); ("yhat_lower", lo); ("yhat_upper", up)], h')
    /\ forall r, r <> df -> h' r = h r.
Proof.
  intros Hwf Hp Hnp Hq Hnq Hfa Hfb Hds Hy Hlo Hup.
  apply decodable_numeric in Hnp, Hnq.
  destruct (two_decodes_run h df "distribution_center_name_" "product_name_")
    as (h1 & h2 & C1 & C2 & _ & E & O); trivial.
  { discriminate. }
  { exact regressor_prefixes_disjoint. }
  exists h2. split; [|exact O].
  unfold decode_forecast, bind. rewrite C1, C2.
  unfold getitem, bind, load, lift. rewrite E.
  change (PyStr.rstrip "_" "distribution_center_name_")
    with "distribution_center_name".
  change (PyStr.rstrip "_" "product_name_") with "product_name".
  cbn [Pd.getitem].
  rewrite (lookup_final _ _ _ "ds"), (lookup_final _ _ _ "yhat"),
    (lookup_final _ _ _ "yhat_lower"), (lookup_final _ _ _ "yhat_upper")
    by (reflexivity || discriminate).
  rewrite lookup_final_first, lookup_final_second by trivial.
  now rewrite Hds, Hy, Hlo, Hup.
Qed.

Lemma decode_forecast_result_witness :
  let h : store :=
    fun _ => [("ds", Object [Some "mon"; Some "tue"]);
              ("trend", Numeric [Some 7%Z; Some 8%Z]);
              ("yhat", Numeric [Some 12%Z; Some 15%Z]);
              ("yhat_lower", Numeric [Some 10%Z; Some 11%Z]);
              ("yhat_upper", Numeric [Some 14%Z; Some 19%Z]);
              ("distribution_center_name_east", Numeric [Some 0%Z; Some 1%Z]);
              ("distribution_center_name_north", Numeric [Some 1%Z; Some 0%Z]);
              ("product_name_tea", Numeric [Some 1%Z; Some 1%Z])] in
  exists h',
    decode_forecast 0 h
    = (Ok [("ds", Object [Some "mon"; Some "tue"]);
           ("distribution_center_name",
            Object (Pd.str_replace
                      (selected (h 0) "distribution_center_name_")
                      "distribution_center_name_" EmptyString));
           ("product_name",
            Object (Pd.str_replace (selected (h 0) "product_name_")
                                   "product_name_" EmptyString));
           ("yhat", Numeric [Some 12%Z; Some 15%Z]);
           ("yhat_lower", Numeric [Some 10%Z; Some 11%Z]);
           ("yhat_upper", Numeric [Some 14%Z; Some 19%Z])], h')
    /\ forall r, r <> 0 -> h' r = h r.
Proof.
  apply (decode_forecast_result
           (fun _ => [("ds", Object [Some "mon"; Some "tue"]);
                      ("trend", Numeric [Some 7%Z; Some 8%Z]);
                      ("yhat", Numeric [Some 12%Z; Some 15%Z]);
                      ("yhat_lower", Numeric [Some 10%Z; Some 11%Z]);
                      ("yhat_upper", Numeric [Some 14%Z; Some 19%Z]);
                      ("distribution_center_name_east",
                       Numeric [Some 0%Z; Some 1%Z]);
                      ("distribution_center_name_north",
                       Numeric [Some 1%Z; Some 0%Z]);
                      ("product_name_tea", Numeric [Some 1%Z; Some 1%Z])]) 0).
  - reflexivity.
  - discriminate.
  - reflexivity.
  - discriminate.
  - reflexivity.
  - simpl. intros H. repeat (destruct H as [H|H]; [discriminate H|]).
    exact H.
  - simpl. intros H. repeat (destruct H as [H|H]; [discriminate H|]).
    exact H.
  - reflexivity.
  - reflexivity.
  - reflexivity.
  - reflexivity.
Defined.

(** X19.  Lines 94-99 are not undone by a failure.  When the forecast has
    at least one row, indicator columns under [distribution_center_name_]
    (numbers that [float64] holds exactly, one on every row at least) but no
    column under [product_name_], the second [undummy] raises [ValueError], and the
    forecast stays as the first one left it: without the indicator columns of
    the distribution centers, with the decoded column. *)
Theorem decode_forecast_failure_keeps_first_decoding
        (h : store) (df : ref) :
  wf (h df) = true ->
  0 < Pd.nrows (h df) ->
  dummy_cols (h df) "distribution_center_name_" <> [] ->
  decodable (h df) "distribution_center_name_" = true ->
  ~ In "distribution_center_name" (Pd.columns (h df)) ->
  dummy_cols (h df) "product_name_" = [] ->
  exists h',
    decode_forecast df h = (Raise ValueError, h')
    /\ h' df = others (h df) "distribution_center_name_"
               ++ [("distribution_center_name",
                    Object (Pd.str_replace
                              (selected (h df) "distribution_center_name_")
                              "distribution_center_name_" EmptyString))]
    /\ forall r, r <> df -> h' r = h r.
Proof.
  intros Hwf Hrows Hp Hnp Hfa Hq. apply decodable_numeric in Hnp.
  destruct (undummy_fresh_run h df "distribution_center_name_" Hwf Hp Hnp Hfa)
    as (h1 & C1 & E1 & _ & O1).
  exists h1. split; [|split; [exact E1 | exact O1]].
  unfold decode_forecast, bind. rewrite C1.
  pose proof (undummy_run h1 df "product_name_") as R.
  rewrite undummy_frame_no_match in R.
  - now rewrite R.
  - rewrite E1.
    now rewrite (dummy_cols_after (h df) "distribution_center_name_"
                   "product_name_" _ regressor_prefixes_disjoint eq_refl).
  - rewrite E1.
    destruct (wf_decoded (h df) "distribution_center_name_" Hwf Hfa)
      as [_ ->].
    exact Hrows.
Qed.

Lemma decode_forecast_failure_keeps_first_decoding_witness :
  let h : store :=
    fun _ => [("ds", Object [Some "mon"]);
              ("yhat", Numeric [Some 12%Z]);
              ("distribution_center_name_north", Numeric [Some 1%Z])] in
  exists h',
    decode_forecast 0 h = (Raise ValueError, h')
    /\ h' 0 = others (h 0) "distribution_center_name_"
              ++ [("distribution_center_name",
                   Object (Pd.str_replace
                             (selected (h 0) "distribution_center_name_")
                             "distribution_center_name_" EmptyString))]
    /\ forall r, r <> 0 -> h' r = h r.
Proof.
  apply (decode_forecast_failure_keeps_first_decoding
           (fun _ => [("ds", Object [Some "mon"]);
                      ("yhat", Numeric [Some 12%Z]);
                      ("distribution_center_name_north", Numeric [Some 1%Z])])
           0).
  - reflexivity.
  - simpl. lia.
  - discriminate.
  - reflexivity.
  - simpl. intros [H|[H|[H|[]]]]; discriminate H.
  - reflexivity.
Defined.

(** X20.  When the forecast has indicator columns under both prefixes
    (numbers that [float64] holds exactly, one on every row at least), so
    that both decodings succeed, but lacks one of the columns [ds], [yhat], [yhat_lower], [yhat_upper], the selection of line
    99 raises [KeyError]; the forecast object is left decoded. *)
Theorem decode_forecast_missing_column
        (h : store) (df : ref) (c : string) :
  wf (h df) = true ->
  dummy_cols (h df) "distribution_center_name_" <> [] ->
  decodable (h df) "distribution_center_name_" = true ->
  dummy_cols (h df) "product_name_" <> [] ->
  decodable (h df) "product_name_" = true ->
  ~ In "distribution_center_name" (Pd.columns (h df)) ->
  ~ In "product_name" (Pd.columns (h df)) ->
  In c ["ds"; "yhat"; "yhat_lower"; "yhat_upper"] ->
  ~ In c (Pd.columns (h df)) ->
  exists h',
    decode_forecast df h = (Raise KeyError, h')
    /\ h' df = others (others (h df) "distribution_center_name_")
                      "product_name_"
               ++ [("distribution_center_name",
                    Object (Pd.str_replace
                              (selected (h df) "distribution_center_name_")
                              "distribution_center_name_" EmptyString));
                   ("product_name",
                    Object (Pd.str_replace (selected (h df) "product_name_")
                                           "product_name_" EmptyString))].
Proof.
  intros Hwf Hp Hnp Hq Hnq Hfa Hfb Hc Hmiss.
  apply decodable_numeric in Hnp, Hnq.
  destruct (two_decodes_run h df "distribution_center_name_" "product_name_")
    as (h1 & h2 & C1 & C2 & _ & E & O); trivial.
  { discriminate. }
  { exact regressor_prefixes_disjoint. }
  exists h2. split; [|exact E].
  unfold decode_forecast, bind. rewrite C1, C2.
  unfold getitem, bind, load, lift. f_equal.
  apply getitem_missing with c.
  - simpl in Hc. simpl. tauto.
  - rewrite E.
    change (PyStr.rstrip "_" "distribution_center_name_")
      with "distribution_center_name".
    change (PyStr.rstrip "_" "product_name_") with "product_name".
    rewrite lookup_final.
    + now apply lookup_absent.
    + destruct Hc as [<-|[<-|[<-|[<-|[]]]]]; reflexivity.
    + destruct Hc as [<-|[<-|[<-|[<-|[]]]]]; reflexivity.
    + destruct Hc as [<-|[<-|[<-|[<-|[]]]]]; discriminate.
    + destruct Hc as [<-|[<-|[<-|[<-|[]]]]]; discriminate.
Qed.

Lemma decode_forecast_missing_column_witness :
  let h : store :=
    fun _ => [("ds", Object [Some "mon"]);
              ("yhat", Numeric [Some 12%Z]);
              ("yhat_lower", Numeric [Some 10%Z]);
              ("distribution_center_name_north", Numeric [Some 1%Z]);
              ("product_name_tea", Numeric [Some 1%Z])] in
  exists h',
    decode_forecast 0 h = (Raise KeyError, h')
    /\ h' 0 = others (others (h 0) "distribution_center_name_")
                     "product_name_"
              ++ [("distribution_center_name",
                   Object (Pd.str_replace
                             (selected (h 0) "distribution_center_name_")
                             "distribution_center_name_" EmptyString));
                  ("product_name",
                   Object (Pd.str_replace (selected (h 0) "product_name_")
                                          "product_name_" EmptyString))].
Proof.
  apply (decode_forecast_missing_column
           (fun _ => [("ds", Object [Some "mon"]);
                      ("yhat", Numeric [Some 12%Z]);
                      ("yhat_lower", Numeric [Some 10%Z]);
                      ("distribution_center_name_north", Numeric [Some 1%Z]);
                      ("product_name_tea", Numeric [Some 1%Z])])
           0 "yhat_upper").
  - reflexivity.
  - discriminate.
  - reflexivity.
  - discriminate.
  - reflexivity.
  - simpl. intros H. repeat (destruct H as [H|H]; [discriminate H|]). exact H.
  - simpl. intros H. repeat (destruct H as [H|H]; [discriminate H|]). exact H.
  - simpl. auto.
  - simpl. intros H. repeat (destruct H as [H|H]; [discriminate H|]). exact H.
Defined.

(* ================================================================== *)
(** * The label decoded from an indicator column *)
(* ================================================================== *)

Lemma replace_from_skip old new u v :
  PyStr.replace_from old new (String.length u) (u ++ v)
  = PyStr.replace_from old new 0 v.
Proof.
  induction u as [|a u IH]; [reflexivity|].
  cbn [String.length String.append PyStr.replace_from]. exact IH.
Qed.

(** Removing a non-empty prefix wherever it occurs, in a label that starts
    with it: the leading occurrence goes, and the scan goes on in the rest. *)
Lemma replace_prefixed p v :
  p <> EmptyString ->
  PyStr.replace (p ++ v) p EmptyString = PyStr.replace v p EmptyString.
Proof.
  destruct p as [|a p]; [congruence|]. intros _.
  unfold PyStr.replace.
  change ((String a p ++ v)%string) with (String a (p ++ v)).
  cbn [PyStr.replace_from].
  change (String a (p ++ v)) with ((String a p ++ v)%string).
  rewrite prefix_append.
  replace (String.length (String a p) - 1) with (String.length p)
    by (simpl; lia).
  cbn [String.append]. apply replace_from_skip.
Qed.

(** X21.  What [undummy] reads from the label of an indicator column, the
    columns under the prefix being numbers that [float64] holds exactly, with
    one on every row at least.  On a row where the column labelled with the (non-empty) prefix followed by [v]
    holds more than every other column under the prefix, the value decoded
    is [v] with every occurrence of the prefix removed: it is [v] itself
    exactly when the prefix does not occur in [v]. *)
Theorem undummy_decoded_label
        (h : store) (df : ref) (prefix v : string) (i : nat) (x : Z) :
  prefix <> EmptyString ->
  wf (h df) = true ->
  decodable (h df) prefix = true ->
  ~ In (PyStr.rstrip "_" prefix) (Pd.columns (h df)) ->
  i < Pd.nrows (h df) ->
  In (prefix ++ v)%string (Pd.columns (h df)) ->
  value_at (h df) (prefix ++ v) i = Some x ->
  (forall c' w, In c' (dummy_cols (h df) prefix) -> c' <> (prefix ++ v)%string ->
                value_at (h df) c' i = Some w -> (w < x)%Z) ->
  exists h' values,
    undummy df prefix h = (Ok df, h')
    /\ Pd.lookup (PyStr.rstrip "_" prefix) (h' df) = Some (Object values)
    /\ nth_error values i
       = Some (Some (PyStr.replace v prefix EmptyString))
    /\ (nth_error values i = Some (Some v)
        <-> PyStr.replace v prefix EmptyString = v).
Proof.
  intros Hp Hwf Hnum Hfresh Hi Hc Hv Hmax. apply decodable_numeric in Hnum.
  assert (Hin : In (prefix ++ v)%string (dummy_cols (h df) prefix)).
  { unfold dummy_cols. apply filter_In. split; trivial. apply prefix_append. }
  assert (Hne : dummy_cols (h df) prefix <> [])
    by (intros E; now rewrite E in Hin).
  destruct (undummy_fresh_run h df prefix Hwf Hne Hnum Hfresh)
    as (h' & Hcall & _ & Hcol & _).
  exists h'. eexists. split; [exact Hcall|]. split; [exact Hcol|].
  rewrite decoded_row by trivial.
  rewrite (argmax_strict (h df) _ i _ x Hin Hv Hmax). simpl.
  rewrite replace_prefixed by trivial.
  split; trivial. split; [intros [= E]; exact E | intros ->; reflexivity].
Qed.

Lemma undummy_decoded_label_witness :
  let h : store := fun _ => [("a_x_a_y", Numeric [Some 1%Z; Some 0%Z]);
                             ("a_z", Numeric [Some 0%Z; Some 1%Z])] in
  exists h' values,
    undummy 0 "a_" h = (Ok 0, h')
    /\ Pd.lookup (PyStr.rstrip "_" "a_") (h' 0) = Some (Object values)
    /\ nth_error values 0
       = Some (Some (PyStr.replace "x_a_y" "a_" EmptyString))
    /\ (nth_error values 0 = Some (Some "x_a_y")
        <-> PyStr.replace "x_a_y" "a_" EmptyString = "x_a_y").
Proof.
  apply (undummy_decoded_label
           (fun _ => [("a_x_a_y", Numeric [Some 1%Z; Some 0%Z]);
                      ("a_z", Numeric [Some 0%Z; Some 1%Z])])
           0 "a_" "x_a_y" 0 1%Z).
  - discriminate.
  - reflexivity.
  - reflexivity.
  - simpl. intros [H|[H|[]]]; discriminate H.
  - simpl. lia.
  - simpl. auto.
  - reflexivity.
  - simpl. intros c' w [<-|[<-|[]]] Hne Hw; vm_compute in Hw.
    + congruence.
    + injection Hw as <-. lia.
Defined.

(* ================================================================== *)
(** * Edge cases of the encoding and of the decoding *)
(* ================================================================== *)




Lemma intersperse_empty s : PyStr.intersperse EmptyString s = s.
Proof. induction s as [|c s IH]; simpl; congruence. Qed.

Lemma str_replace_empty idx :
  Pd.str_replace idx EmptyString EmptyString = idx.
Proof.
  unfold Pd.str_replace. rewrite <- (map_id idx) at 2. apply map_ext.
  intros [c|]; simpl; trivial. unfold PyStr.replace.
  now rewrite intersperse_empty.
Qed.

Lemma startswith_empty c : PyStr.startswith c EmptyString = true.
Proof. unfold PyStr.startswith. now destruct c. Qed.

(** X24.  With the empty prefix every column is taken for an indicator
    column.  On a well-formed, non-empty frame of columns of numbers that
    [float64] holds exactly, with a value on every row at least and no
    column labelled with the empty label, the call removes every column and
    leaves one column, under the empty label, holding for every row the label
    of the first column among those with the largest value of the row. *)
Theorem undummy_empty_prefix (h : store) (df : ref) :
  wf (h df) = true ->
  h df <> [] ->
  forallb (fun col => is_numeric (snd col)) (h df) = true ->
  values_exact (h df) EmptyString = true ->
  rows_have_value (h df) EmptyString = true ->
  ~ In EmptyString (Pd.columns (h df)) ->
  exists h' values,
    undummy df EmptyString h = (Ok df, h')
    /\ h' df = [(EmptyString, Object values)]
    /\ List.length values = Pd.nrows (h df)
    /\ forall i, i < Pd.nrows (h df) ->
                 exists c,
                   nth i values None = Some c
                   /\ first_argmax (h df) (Pd.columns (h df)) i (Some c).
Proof.
  intros Hwf Hne Hnum _ Hval Hfresh.
  assert (Hcols : dummy_cols (h df) EmptyString = Pd.columns (h df)).
  { unfold dummy_cols. apply forallb_filter_id, forallb_forall.
    intros c _. apply startswith_empty. }
  assert (Hothers : others (h df) EmptyString = []).
  { unfold others. apply filter_none. intros col _.
    now rewrite startswith_empty. }
  destruct (undummy_fresh_run h df EmptyString) as (h' & Hcall & E & _ & _);
    trivial.
  - rewrite Hcols. unfold Pd.columns. intros H. apply map_eq_nil in H.
    contradiction.
  - unfold indicators_numeric. rewrite forallb_forall in *.
    intros col Hc. rewrite (Hnum col Hc). apply orb_true_r.
  - exists h', (selected (h df) EmptyString).
    split; [exact Hcall|]. split; [|split].
    + rewrite E, Hothers, str_replace_empty. reflexivity.
    + unfold selected. now rewrite length_map, length_seq.
    + intros i Hi. rewrite selected_nth by trivial.
      destruct (argmax_has_label (h df) EmptyString i) as [c Hc].
      { now apply rows_have_value_at. }
      exists c. split; trivial. rewrite <- Hcols, <- Hc. apply argmax_first.
Qed.

Lemma undummy_empty_prefix_witness :
  let h : store := fun _ => [("yhat", Numeric [Some 12%Z; Some 15%Z]);
                             ("y", Numeric [Some 12%Z; Some 20%Z])] in
  exists h' values,
    undummy 0 EmptyString h = (Ok 0, h')
    /\ h' 0 = [(EmptyString, Object values)]
    /\ List.length values = Pd.nrows (h 0)
    /\ forall i, i < Pd.nrows (h 0) ->
                 exists c,
                   nth i values None = Some c
                   /\ first_argmax (h 0) (Pd.columns (h 0)) i (Some c).
Proof.
  apply (undummy_empty_prefix
           (fun _ => [("yhat", Numeric [Some 12%Z; Some 15%Z]);
                      ("y", Numeric [Some 12%Z; Some 20%Z])]) 0).
  - reflexivity.
  - discriminate.
  - reflexivity.
  - reflexivity.
  - reflexivity.
  - simpl. intros [H|[H|[]]]; discriminate H.
Defined.
